(** * WAMP Application Page web service ([crossbar/webservice/wap.py])

    A shallow embedding of [WapResource]: the session cache, the route
    table handed to werkzeug, the [render_GET] handler with its two
    Deferred callbacks and the error renderer, followed by the properties
    the specification states about them.

    Conventions.
    - Python [bytes] are Rocq strings (sequences of 8-bit characters).
    - Python text ([str]) is represented by its UTF-8 encoding, so
      [s.encode('utf8')] keeps the representation and
      [b.decode('utf-8')] is a validity check that may raise.
    - Mutable objects are passed explicitly: the resource (with its worker)
      and the request are records threaded through every handler.
    - Logging calls have no effect on the response and are left out. *)

From Stdlib Require Import String Ascii List ZArith Bool Lia.
From stdpp Require Import gmap strings pretty.
Import ListNotations.
Open Scope string_scope.

Abbreviation bytes := string (only parsing).
Abbreviation str := string (only parsing).

(** ** Text *)

Module Text.

Definition dquote : ascii := "034"%char.
Definition nl : ascii := "010"%char.

Definition byte_in (lo hi : N) (c : ascii) : bool :=
  let n := N_of_ascii c in ((lo <=? n) && (n <=? hi))%N.

Definition cont (c : ascii) : bool := byte_in 128 191 c.

(** Well-formed UTF-8 byte sequences (Unicode table 3-7): what
    [bytes.decode('utf-8')] accepts in strict mode. *)
Fixpoint utf8_valid (b : bytes) : bool :=
  match b with
  | EmptyString => true
  | String c0 r0 =>
      if byte_in 0 127 c0 then utf8_valid r0
      else match r0 with
      | EmptyString => false
      | String c1 r1 =>
          if byte_in 194 223 c0 then cont c1 && utf8_valid r1
          else match r1 with
          | EmptyString => false
          | String c2 r2 =>
              if byte_in 224 224 c0 then byte_in 160 191 c1 && cont c2 && utf8_valid r2
              else if byte_in 225 236 c0 then cont c1 && cont c2 && utf8_valid r2
              else if byte_in 237 237 c0 then byte_in 128 159 c1 && cont c2 && utf8_valid r2
              else if byte_in 238 239 c0 then cont c1 && cont c2 && utf8_valid r2
              else match r2 with
              | EmptyString => false
              | String c3 r3 =>
                  if byte_in 240 240 c0
                  then byte_in 144 191 c1 && cont c2 && cont c3 && utf8_valid r3
                  else if byte_in 241 243 c0
                  then cont c1 && cont c2 && cont c3 && utf8_valid r3
                  else if byte_in 244 244 c0
                  then byte_in 128 143 c1 && cont c2 && cont c3 && utf8_valid r3
                  else false
              end
          end
      end
  end.

(** [b.decode('utf-8')]: [None] stands for [UnicodeDecodeError]. *)
Definition decode_utf8 (b : bytes) : option str :=
  if utf8_valid b then Some b else None.

(** [s.encode('utf8')] on text held as UTF-8. *)
Definition encode_utf8 (s : str) : bytes := s.

(** Substring test, for statements that a body contains some text. *)
Fixpoint contains (needle hay : string) : bool :=
  if String.prefix needle hay then true
  else match hay with
       | EmptyString => false
       | String _ rest => contains needle rest
       end.

End Text.

(** ** werkzeug.utils.escape *)

Module Werkzeug_utils.

Definition escape_char (c : ascii) : str :=
  if Ascii.eqb c "&"%char then "&amp;"
  else if Ascii.eqb c "<"%char then "&lt;"
  else if Ascii.eqb c ">"%char then "&gt;"
  else if Ascii.eqb c Text.dquote then "&quot;"
  else String c EmptyString.

(** [escape(s)] for a text argument, as werkzeug has it before it hands
    the work to markupsafe: the ampersand, the two angle brackets and the
    double quote are replaced, in that order, by &amp; &lt; &gt; and
    &quot;.  The ampersand is replaced first, so the chain of
    [str.replace] calls acts character by character. *)
Fixpoint escape (s : str) : str :=
  match s with
  | EmptyString => EmptyString
  | String c rest => escape_char c +:+ escape rest
  end.

Definition special (c : ascii) : bool :=
  Ascii.eqb c "<"%char || Ascii.eqb c ">"%char || Ascii.eqb c Text.dquote.

Fixpoint free_of_markup (s : str) : bool :=
  match s with
  | EmptyString => true
  | String c rest => negb (special c) && free_of_markup rest
  end.

End Werkzeug_utils.

(** ** WAMP values, sessions and the router worker (autobahn, crossbar) *)

Module Wamp.

(** Results of a procedure call, as far as the handler inspects them:
    a scalar or a flat mapping from names to scalars. *)
Inductive Scalar :=
| SNone
| SBool (b : bool)
| SInt (z : Z)
| SStr (s : str).

Inductive Result :=
| Single (v : Scalar)
| Mapping (d : gmap str Scalar).

Definition type_name (r : Result) : str :=
  match r with
  | Single SNone => "NoneType"
  | Single (SBool _) => "bool"
  | Single (SInt _) => "int"
  | Single (SStr _) => "str"
  | Mapping _ => "dict"
  end.

(** ['{}'.format(type(result))], as Python 3 prints a type. *)
Definition type_repr (r : Result) : str :=
  "<class '" +:+ type_name r +:+ "'>".

(** [ApplicationSession(ComponentConfig(realm=..., extra=None))]; the
    number is the identity of the Python object. *)
Record ApplicationSession := {
  session_id : nat;
  session_realm : option str;
}.

Record Router := { router_realm : option str }.

(** One [_router_session_factory.add(session, router, authrole=...)];
    [reg_router] is [None] where the call leaves the router out. *)
Record Registration := {
  reg_session : ApplicationSession;
  reg_router : option Router;
  reg_authrole : str;
}.

(** One [session.call(procedure, **kwargs)]. *)
Record RemoteCall := {
  call_session : ApplicationSession;
  call_procedure : str;
  call_kwargs : gmap str str;
}.

(** What a failure wraps ([failure.value]): an [ApplicationError], which
    has the attribute [error], or an exception of another class, which has
    not (a [TransportLost] when the session loses its transport, for one). *)
Inductive Failure :=
| ApplicationError (error : str)
| OtherFailure (class_name : str).

(** How the Deferred of a call fires: the callback with the result, or
    the errback with a failure. *)
Inductive Completion :=
| Succeeded (result : Result)
| Failed (error : Failure).

(** [session.call] either raises on the spot or hands back a Deferred. *)
Inductive CallOutcome :=
| CallRaised (text : str)
| CallPlaced (c : Completion).

(** The worker, as far as the resource touches it: the sessions added to
    its session factory and the calls placed through them (both oldest
    first), and the next free object identity. *)
Record Worker := {
  _router_session_factory : list Registration;
  calls : list RemoteCall;
  next_object : nat;
}.

Definition new_session (realm : option str) (w : Worker)
  : ApplicationSession * Worker :=
  ({| session_id := next_object w; session_realm := realm |},
   {| _router_session_factory := _router_session_factory w;
      calls := calls w;
      next_object := S (next_object w) |}).

(** Modelled from the spec: [RouterSessionFactory.add] is defined in
    crossbar's router package, outside the module verified here.  The
    specification gives the collaborator as [registerSession(handle, role)]
    returning nothing; here it appends the registration to the factory,
    with the router when the caller passes one. *)
Definition factory_add (s : ApplicationSession) (router : option Router)
    (authrole : str) (w : Worker) : Worker :=
  {| _router_session_factory :=
       _router_session_factory w ++
       [ {| reg_session := s; reg_router := router; reg_authrole := authrole |} ];
     calls := calls w;
     next_object := next_object w |}.

Definition record_call (c : RemoteCall) (w : Worker) : Worker :=
  {| _router_session_factory := _router_session_factory w;
     calls := calls w ++ [c];
     next_object := next_object w |}.

End Wamp.

(** ** Templates (jinja2) *)

Module Jinja2.

(** What [template.render(result)] does: it returns markup or raises,
    and then [str(e)] is the text kept. *)
Inductive RenderOutcome :=
| Rendered (html : str)
| RenderRaised (text : str).

(** A compiled template: an opaque handle with its [render] method. *)
Record Template := {
  template_name : str;
  render : Wamp.Result -> RenderOutcome;
}.

End Jinja2.

(** ** Routing (werkzeug.routing) *)

Module Werkzeug.

Definition upper_char (c : ascii) : ascii :=
  if Text.byte_in 97 122 c then ascii_of_N (N_of_ascii c - 32) else c.

(** [x.upper()] on method names.  Only the ASCII letters are mapped; a
    method name with letters outside ASCII, which Python would map too, is
    outside what is modelled. *)
Fixpoint upper (s : str) : str :=
  match s with
  | EmptyString => EmptyString
  | String c rest => String (upper_char c) (upper rest)
  end.

(** The outcome of trying one rule on a path: no match, a match with the
    values of the path variables, or the request for a redirect to the
    path with a trailing slash. *)
Inductive RuleMatch :=
| NoMatch
| Match (values : gmap str str)
| RequestSlash.

Definition Endpoint : Type := str * Jinja2.Template.

Record Rule := {
  rule : str;
  methods : list str;
  endpoint : Endpoint;
}.

(** [Rule(url, methods=[...], endpoint=...)]: method names are upper-cased
    and HEAD is added to a rule that allows GET. *)
Definition Rule_init (url : str) (ms : list str) (e : Endpoint) : Rule :=
  let up := map upper ms in
  {| rule := url;
     methods := if existsb (String.eqb "GET") up && negb (existsb (String.eqb "HEAD") up)
                then up ++ ["HEAD"] else up;
     endpoint := e |}.

(** [map.bind('/')]: the adapter keeps the rules and the default method. *)
Record MapAdapter := {
  rules : list Rule;
  default_method : str;
}.

Definition bind (rs : list Rule) : MapAdapter :=
  {| rules := rs; default_method := "GET" |}.

Inductive MatchResult :=
| Found (e : Endpoint) (values : gmap str str)
| NotFound
| MethodNotAllowed (valid_methods : list str)
| RequestRedirect.

End Werkzeug.

(** ** The collaborators of the resource

    The regular expression werkzeug compiles for a rule, the template loader
    of the jinja2 environment, the router behind [session.call] and the
    error pages of twisted.web are not part of this module; the development
    is parametric in them. *)

Class Collaborators := {
  (** [rule.match(path, method)] *)
  rule_match : Werkzeug.Rule -> str -> str -> Werkzeug.RuleMatch;
  (** [env.get_template(name)]; [None] stands for [TemplateNotFound]. *)
  get_template : str -> option Jinja2.Template;
  (** [session.call(procedure, **kwargs)]. *)
  session_call : Wamp.RemoteCall -> Wamp.CallOutcome;
  (** The page twisted.web itself renders for an error status. *)
  error_page : Z -> bytes;
}.

Module Routing.
Import Werkzeug.

Section Match.
Context `{Collaborators}.

(** The loop of [MapAdapter.match]: the first rule that matches the path
    and allows the method wins; rules that match the path only are
    remembered in [have_match_for].  The rules are tried in the order of
    the list.  werkzeug sorts its rules by weight before the first match,
    which the list does not show: when several rules match one path, the
    one found here may not be the one werkzeug finds.  What is proved below
    about matching holds for every order of the rules. *)
Fixpoint match_rules (rs : list Rule) (path method : str)
    (have_match_for : list str) : MatchResult :=
  match rs with
  | [] =>
      match have_match_for with
      | [] => NotFound
      | _ :: _ => MethodNotAllowed have_match_for
      end
  | r :: rest =>
      match rule_match r path method with
      | RequestSlash => RequestRedirect
      | NoMatch => match_rules rest path method have_match_for
      | Match rv =>
          if existsb (String.eqb method) (methods r)
          then Found (endpoint r) rv
          else match_rules rest path method (have_match_for ++ methods r)
      end
  end.

(** [adapter.match(path_info)]: no method is given, so the default
    method of the adapter is the one matched. *)
Definition match_ (a : MapAdapter) (path_info : str) : MatchResult :=
  match_rules (rules a) path_info (default_method a) [].

(** A rule matches the path but is registered for other methods. *)
Definition wrong_method (path method : str) (r : Rule) : Prop :=
  exists rv, rule_match r path method = Match rv
             /\ existsb (String.eqb method) (methods r) = false
             /\ methods r <> [].

End Match.
End Routing.

(** ** Requests (twisted.web) *)

Module Twisted.

Inductive Exception :=
| UnicodeDecodeError
| RequestRedirect
| CallError (text : str)
| UnsupportedMethod (allowed : list bytes).

(** What a render method hands back: the body, the marker that the
    response is completed later (here with the Deferred the callbacks hang
    on, given by the way it fires), or an exception. *)
Inductive Rendering :=
| Body (b : bytes)
| NOT_DONE_YET (d : Wamp.Completion)
| Raised (e : Exception).

Record Request := {
  method : bytes;
  uri : bytes;
  received_cookies : gmap bytes bytes;
  (** attribute set by the handler once a route matched *)
  template : option Jinja2.Template;
  (** [setResponseCode]; 200 on a fresh request *)
  code : Z;
  (** the status that went out with the headers, at the first write *)
  sent_code : option Z;
  (** the bytes handed to [write] so far (twisted.web sends the headers
      only when the method is HEAD) *)
  written : bytes;
  (** how many times [finish()] was called *)
  finished : nat;
}.

Definition fresh_request (m u : bytes) (cookies : gmap bytes bytes) : Request :=
  {| method := m; uri := u; received_cookies := cookies; template := None;
     code := 200; sent_code := None; written := EmptyString; finished := 0 |}.

Definition setResponseCode (c : Z) (r : Request) : Request :=
  {| method := method r; uri := uri r; received_cookies := received_cookies r;
     template := template r; code := c; sent_code := sent_code r;
     written := written r; finished := finished r |}.

Definition set_template (t : Jinja2.Template) (r : Request) : Request :=
  {| method := method r; uri := uri r; received_cookies := received_cookies r;
     template := Some t; code := code r; sent_code := sent_code r;
     written := written r; finished := finished r |}.

(** [request.write(data)]: the first write sends the headers with the
    current status. *)
Definition write (data : bytes) (r : Request) : Request :=
  {| method := method r; uri := uri r; received_cookies := received_cookies r;
     template := template r; code := code r;
     sent_code := match sent_code r with
                  | None => Some (code r)
                  | Some c => Some c
                  end;
     written := written r +:+ data;
     finished := finished r |}.

(** [request.finish()]: headers go out now if nothing was written. *)
Definition finish (r : Request) : Request :=
  let r := match sent_code r with
           | None => write EmptyString r
           | Some _ => r
           end in
  {| method := method r; uri := uri r; received_cookies := received_cookies r;
     template := template r; code := code r; sent_code := sent_code r;
     written := written r; finished := S (finished r) |}.

(** The class of client errors among the status codes. *)
Definition client_error (status : Z) : bool :=
  ((400 <=? status) && (status <? 500))%Z.

End Twisted.

(** ** The resource *)

Module Wap.
Import Wamp Werkzeug Twisted.

(** One entry of [config['routes']]. *)
Record Route := {
  route_path : str;
  route_method : str;
  route_call : str;
  route_render : str;
}.

(** The configuration item of the web service. *)
Record Config := {
  wamp_realm : option str;
  templates : str;
  routes : list Route;
}.

(** The attributes of a [WapResource].  [_default_session] is an option
    because [render_GET] tests the session it resolved for truth; an
    [ApplicationSession] object is always true, [None] is not. *)
Record WapResource := {
  _worker : Worker;
  _config : Config;
  _session_cache : gmap bytes ApplicationSession;
  _realm_name : option str;
  _default_session : option ApplicationSession;
  _map_adapter : MapAdapter;
}.

Definition with_worker (w : Worker) (self : WapResource) : WapResource :=
  {| _worker := w; _config := _config self;
     _session_cache := _session_cache self; _realm_name := _realm_name self;
     _default_session := _default_session self;
     _map_adapter := _map_adapter self |}.

Definition with_session_cache (c : gmap bytes ApplicationSession)
    (self : WapResource) : WapResource :=
  {| _worker := _worker self; _config := _config self;
     _session_cache := c; _realm_name := _realm_name self;
     _default_session := _default_session self;
     _map_adapter := _map_adapter self |}.

Fixpoint spaces (n : nat) : str :=
  match n with
  | O => EmptyString
  | S k => String " "%char (spaces k)
  end.

Definition line (indent : nat) (text : str) : str :=
  spaces indent +:+ text +:+ String Text.nl EmptyString.

(** The literal of [_render_error] up to the placeholder ... *)
Definition shell_head : str :=
  String Text.nl EmptyString
  +:+ line 12 "<html>"
  +:+ line 16 "<title>API Error</title>"
  +:+ line 16 "<body>"
  +:+ line 20 ("<h3 style=" +:+ String Text.dquote "color: #f00"
               +:+ String Text.dquote ">Crossbar WAMP Application Page Error</h3>")
  +:+ spaces 20 +:+ "<pre>".

(** ... and after it. *)
Definition shell_tail : str :=
  line 0 "</pre>"
  +:+ line 16 "</body>"
  +:+ line 12 "</html>"
  +:+ spaces 8.

(** [_render_error(message, request)] *)
Definition _render_error (message : str) : bytes :=
  Text.encode_utf8 (shell_head +:+ Werkzeug_utils.escape message +:+ shell_tail).

Definition no_session_message : str := "could not call procedure - no session".
Definition not_found_message : str :=
  "path not found [werkzeug.routing.MapAdapter.match]".
Definition not_allowed_message : str :=
  "method not allowed [werkzeug.routing.MapAdapter.match]".
Definition unknown_error_message : str :=
  "unknown error [werkzeug.routing.MapAdapter.match]".

(** The message of the render-error branch of [_after_call_success]. *)
Definition render_error_message (result : Result) (e : str) : str :=
  "WabResource render error for WAMP result of type "
  +:+ String Text.dquote (type_repr result)
  +:+ String Text.dquote ": " +:+ e.

(** [_after_call_success(result, request)] *)
Definition _after_call_success (result : Result) (request : Request) : Request :=
  let attempt :=
    match template request with
    | Some t => Jinja2.render t result
    | None => Jinja2.RenderRaised "'Request' object has no attribute 'template'"
    end in
  let request :=
    match attempt with
    | Jinja2.RenderRaised e =>
        let emsg := render_error_message result e in
        let request := setResponseCode 500 request in
        write (_render_error emsg) request
    | Jinja2.Rendered rendered_html =>
        write (Text.encode_utf8 rendered_html) request
    end in
  finish request.

(** [_after_call_error(error, request)].  The status is set first; reading
    [error.value.error] then raises [AttributeError] when the failure wraps
    something else than an [ApplicationError], and neither [write] nor
    [finish] is reached.  The second component is the text of the exception
    raised, which the Deferred keeps. *)
Definition _after_call_error (error : Failure) (request : Request)
  : Request * option str :=
  let request := setResponseCode 500 request in
  match error with
  | ApplicationError text =>
      let request := write (_render_error text) request in
      (finish request, None)
  | OtherFailure class_name =>
      (request, Some ("'" +:+ class_name +:+ "' object has no attribute 'error'"))
  end.

(** Python truth of [received_cookies.get(b'session_cookie')]. *)
Definition cookie_truth (cookie : option bytes) : bool :=
  match cookie with
  | Some (String _ _) => true
  | _ => false
  end.

(** The first block of [render_GET]: the session for the request. *)
Definition resolve_session (self : WapResource) (request : Request)
  : WapResource * option ApplicationSession :=
  let cookie := received_cookies request !! "session_cookie" in
  match cookie with
  | Some (String c0 rest as cookie) =>
      match _session_cache self !! cookie with
      | None =>
          let authrole := "anonymous" in
          let '(session, w) := new_session (_realm_name self) (_worker self) in
          let w := factory_add session None authrole w in
          let self := with_worker w self in
          let self := with_session_cache (<[cookie := session]> (_session_cache self)) self in
          (self, Some session)
      | Some session => (self, Some session)
      end
  | _ => (self, _default_session self)
  end.

Section Handlers.
Context `{Collaborators}.

(** The [except Exception] clause of [render_GET]. *)
Definition unknown_error (self : WapResource) (request : Request)
    (e : Exception) : WapResource * Request * Rendering :=
  let request := setResponseCode 500 request in
  let request := write (_render_error unknown_error_message) request in
  (self, request, Raised e).

(** [render_GET(request)] *)
Definition render_GET (self : WapResource) (request : Request)
  : WapResource * Request * Rendering :=
  let '(self, session) := resolve_session self request in
  match session with
  | None => (self, request, Body (_render_error no_session_message))
  | Some session =>
      match Text.decode_utf8 (uri request) with
      | None => (self, request, Raised UnicodeDecodeError)
      | Some full_path =>
          match Routing.match_ (_map_adapter self) full_path with
          | Found (procedure, tpl) kwargs =>
              let request := set_template tpl request in
              let c := {| call_session := session;
                          call_procedure := procedure;
                          call_kwargs := if bool_decide (kwargs = ∅) then ∅ else kwargs |} in
              let self := with_worker (record_call c (_worker self)) self in
              match session_call c with
              | CallPlaced d => (self, request, NOT_DONE_YET d)
              | CallRaised text => unknown_error self request (CallError text)
              end
          | NotFound =>
              let request := setResponseCode 404 request in
              (self, request, Body (_render_error not_found_message))
          | MethodNotAllowed _ =>
              let request := setResponseCode 511 request in
              (self, request, Body (_render_error not_allowed_message))
          | Werkzeug.RequestRedirect =>
              unknown_error self request Twisted.RequestRedirect
          end
      end
  end.

(** The loop of [__init__] that turns the configured routes into rules;
    [None] when a template is missing ([TemplateNotFound]). *)
Fixpoint add_routes (path : str) (rs : list Route) : option (list Rule) :=
  match rs with
  | [] => Some []
  | route :: rest =>
      let route_url := "/" +:+ path +:+ route_path route in
      let route_methods := [route_method route] in
      match get_template (route_render route) with
      | None => None
      | Some t =>
          let route_endpoint := (route_call route, t) in
          match add_routes path rest with
          | None => None
          | Some map => Some (Rule_init route_url route_methods route_endpoint :: map)
          end
      end
  end.

(** [__init__(worker, config, path)], for a configuration that has every
    key as a string.  The default session is created and added to the
    session factory before the templates are loaded.  The rules are kept in
    the order of the configuration.  The only failure modelled is a template
    that cannot be loaded; the lookup of the service agent (which runs
    first and fails for an unknown realm), missing keys and rules that
    werkzeug refuses make the real constructor fail as well, and are not
    modelled: what is proved about constructed resources assumes that
    construction succeeded. *)
Definition __init__ (worker : Worker) (config : Config) (path : str)
  : Worker * option WapResource :=
  let realm_name := wamp_realm config in
  let router := {| router_realm := realm_name |} in
  let '(default_session, worker) := new_session realm_name worker in
  let worker := factory_add default_session (Some router) "anonymous" worker in
  match add_routes path (routes config) with
  | None => (worker, None)
  | Some map =>
      (worker,
       Some {| _worker := worker; _config := config;
               _session_cache := ∅; _realm_name := realm_name;
               _default_session := Some default_session;
               _map_adapter := bind map |})
  end.

(** [twisted.web.resource.Resource.render_HEAD], which the resource
    inherits: it calls [render_GET]. *)
Definition render_HEAD (self : WapResource) (request : Request)
  : WapResource * Request * Rendering :=
  render_GET self request.

(** [twisted.web.resource.Resource.render], which the resource inherits:
    dispatch on [render_<METHOD>]. *)
Definition render (self : WapResource) (request : Request)
  : WapResource * Request * Rendering :=
  if String.eqb (method request) "GET" then render_GET self request
  else if String.eqb (method request) "HEAD" then render_HEAD self request
  else (self, request, Raised (UnsupportedMethod ["GET"; "HEAD"])).

(** The Deferred fires: [addCallbacks] hung the two handlers on it.  An
    exception out of a handler stays in the Deferred; nobody else touches
    the request. *)
Definition fire (d : Completion) (request : Request) : Request :=
  match d with
  | Succeeded result => _after_call_success result request
  | Failed error => (_after_call_error error request).1
  end.

(** [twisted.web.server.Request.processingFailed] *)
Definition processingFailed (request : Request) : Request :=
  let request := setResponseCode 500 request in
  let request := write (error_page 500) request in
  finish request.

(** One request from arrival to the end of its response:
    [twisted.web.server.Request.render] around the resource, and the
    Deferred of the call firing afterwards. *)
Definition serve (self : WapResource) (request : Request)
  : WapResource * Request :=
  match render self request with
  | (self, request, Body body) =>
      let request :=
        if String.eqb (method request) "HEAD" then write EmptyString request
        else write body request in
      (self, finish request)
  | (self, request, NOT_DONE_YET d) => (self, fire d request)
  | (self, request, Raised (UnsupportedMethod _)) =>
      let status : Z :=
        if existsb (String.eqb (method request)) ["GET"; "HEAD"; "POST"]
        then 405%Z else 501%Z in
      let request := setResponseCode status request in
      let request := write (error_page status) request in
      (self, finish request)
  | (self, request, Raised _) => (self, processingFailed request)
  end.

End Handlers.

(** The invariant of a constructed resource: the default session exists. *)
Definition well_formed (self : WapResource) : Prop :=
  is_Some (_default_session self).

(** ** The life of a resource *)

Section Lifetime.
Context `{Collaborators}.

(** Requests served one after the other, each to the end of its response,
    as the single event loop does when they do not overlap.  The result is
    the resource after the last request and the requests as they ended. *)
Fixpoint serve_all (self : WapResource) (requests : list Request)
  : WapResource * list Request :=
  match requests with
  | [] => (self, [])
  | request :: rest =>
      let '(self, done) := serve self request in
      let '(self, dones) := serve_all self rest in
      (self, done :: dones)
  end.

End Lifetime.

(** The session handles a resource holds: the default one and those in
    the cache. *)
Definition holds (self : WapResource) (s : ApplicationSession) : Prop :=
  _default_session self = Some s \/ exists token, _session_cache self !! token = Some s.

(** Every handle held was made before the next object of the worker. *)
Definition sessions_fresh (self : WapResource) : Prop :=
  forall s, holds self s -> session_id s < next_object (_worker self).

(** No handle is shared: two tokens never map to one handle, and no token
    maps to the default handle. *)
Definition sessions_distinct (self : WapResource) : Prop :=
  (forall t1 t2 s, _session_cache self !! t1 = Some s ->
                   _session_cache self !! t2 = Some s -> t1 = t2)
  /\ (forall t s, _session_cache self !! t = Some s -> _default_session self <> Some s).

(** A handle is known to the session factory of the worker, with the role
    anonymous. *)
Definition registered (w : Worker) (s : ApplicationSession) : Prop :=
  exists reg, In reg (_router_session_factory w)
              /\ reg_session reg = s /\ reg_authrole reg = "anonymous".

(** Every handle held is registered, and so is the session of every call
    placed so far. *)
Definition sessions_registered (self : WapResource) : Prop :=
  (forall s, holds self s -> registered (_worker self) s)
  /\ Forall (fun c => registered (_worker self) (call_session c)) (calls (_worker self)).

(** Every handle held is bound to the realm of the resource. *)
Definition sessions_in_realm (self : WapResource) : Prop :=
  forall s, holds self s -> session_realm s = _realm_name self.

(** The invariant of the session registry. *)
Definition registry_invariant (self : WapResource) : Prop :=
  sessions_fresh self /\ sessions_distinct self
  /\ sessions_registered self /\ sessions_in_realm self.

(** ** The web service ([RouterWebServiceWap]) *)

(** The personality of the node, as far as [create] reads it: the table of
    configuration checkers.  A checker returns, or raises
    [InvalidConfigException] with a message ([Some]); the personality it is
    handed as its first argument is left out. *)
Record Personality := {
  WEB_SERVICE_CHECKERS : gmap str (Config -> option str);
}.

(** The web transport, as far as [create] reads it: [transport.worker] and
    [transport.worker.personality]. *)
Record Transport := {
  worker : Worker;
  personality : Personality;
}.

(** [RouterWebServiceWap(transport, path, config, resource)] *)
Record RouterWebServiceWap := {
  service_transport : Transport;
  service_path : str;
  service_config : Config;
  service_resource : WapResource;
}.

Inductive CreateError :=
| KeyError (key : str)
| InvalidConfigException (message : str)
| TemplateNotFound.

(** [RouterWebServiceWap.check(personality, config)]: the body is [pass]. *)
Definition check (config : Config) : option str := None.

Section Service.
Context `{Collaborators}.

(** [RouterWebServiceWap.create(transport, path, config)]: the checker
    registered under the name wap runs first, then the resource is built on
    the worker of the transport and wrapped. *)
Definition create (transport : Transport) (path : str) (config : Config)
  : Worker * (CreateError + RouterWebServiceWap) :=
  let personality := personality transport in
  match WEB_SERVICE_CHECKERS personality !! "wap" with
  | None => (worker transport, inl (KeyError "wap"))
  | Some checker =>
      match checker config with
      | Some message => (worker transport, inl (InvalidConfigException message))
      | None =>
          match __init__ (worker transport) config path with
          | (w, None) => (w, inl TemplateNotFound)
          | (w, Some resource) =>
              (w, inr {| service_transport :=
                           {| worker := w; personality := personality |};
                         service_path := path;
                         service_config := config;
                         service_resource := resource |})
          end
      end
  end.

End Service.

End Wap.

(** ** A concrete set of collaborators

    Small executable stand-ins, used to run the handlers on concrete
    requests: a fragment of the jinja2 template language (text and escaped
    variable output), a matcher for rules made of fixed and variable path
    segments, and a router with a handful of procedures. *)

Module Demo.
Import Wamp Werkzeug Twisted Wap.

(** *** Template fragment *)

Inductive Node :=
| TemplateData (text : str)
| Output (name : str).

Inductive Mode :=
| InData (acc : str)
| InVariable (acc : str).

Definition snoc (s : str) (c : ascii) : str := s +:+ String c EmptyString.

Definition data_node (acc : str) : list Node :=
  match acc with
  | EmptyString => []
  | _ => [TemplateData acc]
  end.

Fixpoint ltrim (s : str) : str :=
  match s with
  | String " "%char rest => ltrim rest
  | _ => s
  end.

Definition trim (s : str) : str :=
  String.rev (ltrim (String.rev (ltrim s))).

Definition letter (c : ascii) : bool :=
  Text.byte_in 65 90 c || Text.byte_in 97 122 c || Ascii.eqb c "_"%char.

Definition digit (c : ascii) : bool := Text.byte_in 48 57 c.

Fixpoint all_chars (p : ascii -> bool) (s : str) : bool :=
  match s with
  | EmptyString => true
  | String c rest => p c && all_chars p rest
  end.

(** Names the engine does not look up in the data: constants and the
    globals of the default environment. *)
Definition reserved : list str :=
  ["true"; "false"; "none"; "True"; "False"; "None"; "self";
   "range"; "dict"; "lipsum"; "cycler"; "joiner"; "namespace"].

Definition variable_name (expr : str) : option str :=
  match trim expr with
  | EmptyString => None
  | String c rest as name =>
      if letter c && all_chars (fun x => letter x || digit x) rest
         && negb (existsb (String.eqb name) reserved)
      then Some name else None
  end.

(** The lexer: text up to a pair of opening braces is data, what stands
    between the braces is a variable.  Blocks and comments are outside
    the fragment. *)
Fixpoint lex (m : Mode) (s : str) : option (list Node) :=
  match m, s with
  | InData acc, EmptyString => Some (data_node acc)
  | InData acc, String "{"%char (String "{"%char rest) =>
      option_map (app (data_node acc)) (lex (InVariable EmptyString) rest)
  | InData acc, String "{"%char (String "%"%char _) => None
  | InData acc, String "{"%char (String "#"%char _) => None
  | InData acc, String c rest => lex (InData (snoc acc c)) rest
  | InVariable acc, EmptyString => None
  | InVariable acc, String "}"%char (String "}"%char rest) =>
      match variable_name acc with
      | Some name => option_map (cons (Output name)) (lex (InData EmptyString) rest)
      | None => None
      end
  | InVariable acc, String c rest => lex (InVariable (snoc acc c)) rest
  end.

(** Sources of printable ASCII only, so no line ending is rewritten. *)
Definition compile (source : str) : option (list Node) :=
  if all_chars (Text.byte_in 32 126) source then lex (InData EmptyString) source
  else None.

(** [markupsafe.escape], applied to every value put out. *)
Definition markup_char (c : ascii) : str :=
  if Ascii.eqb c "&"%char then "&amp;"
  else if Ascii.eqb c "<"%char then "&lt;"
  else if Ascii.eqb c ">"%char then "&gt;"
  else if Ascii.eqb c "'"%char then "&#39;"
  else if Ascii.eqb c Text.dquote then "&#34;"
  else String c EmptyString.

Fixpoint markup_escape (s : str) : str :=
  match s with
  | EmptyString => EmptyString
  | String c rest => markup_char c +:+ markup_escape rest
  end.

(** [str(value)] *)
Definition to_str (v : Scalar) : str :=
  match v with
  | SNone => "None"
  | SBool true => "True"
  | SBool false => "False"
  | SInt z => pretty z
  | SStr s => s
  end.

(** [dict(result)], the first step of [Template.render]. *)
Definition to_dict (r : Result) : str + gmap str Scalar :=
  match r with
  | Mapping d => inr d
  | Single (SStr EmptyString) => inr ∅
  | Single (SStr (String _ _)) =>
      inl "dictionary update sequence element #0 has length 1; 2 is required"
  | Single _ => inl ("'" +:+ type_name r +:+ "' object is not iterable")
  end.

Definition render_node (vars : gmap str Scalar) (n : Node) : str :=
  match n with
  | TemplateData text => text
  | Output name =>
      match vars !! name with
      | Some v => markup_escape (to_str v)
      | None => EmptyString
      end
  end.

Definition render_nodes (nodes : list Node) (r : Result) : Jinja2.RenderOutcome :=
  match to_dict r with
  | inl text => Jinja2.RenderRaised text
  | inr vars =>
      Jinja2.Rendered (fold_right (fun n out => render_node vars n +:+ out)
                                  EmptyString nodes)
  end.

(** [Template] objects of the fragment. *)
Definition from_string (name source : str) : option Jinja2.Template :=
  match compile source with
  | Some nodes => Some {| Jinja2.template_name := name;
                          Jinja2.render := render_nodes nodes |}
  | None => None
  end.

(** The templates directory. *)
Definition demo_get_template (name : str) : option Jinja2.Template :=
  if String.eqb name "hello.html" then from_string name "Hello {{name}}"
  else if String.eqb name "user.html" then from_string name "<p>{{ user }}: {{ visits }}</p>"
  else None.

(** *** Rule matcher *)

Fixpoint split_acc (sep : ascii) (acc : str) (s : str) : list str :=
  match s with
  | EmptyString => [acc]
  | String c rest =>
      if Ascii.eqb c sep then acc :: split_acc sep EmptyString rest
      else split_acc sep (snoc acc c) rest
  end.

(** [s.split('/')] *)
Definition segments (s : str) : list str := split_acc "/"%char EmptyString s.

(** A segment written with angle brackets around a name is a variable. *)
Definition variable_segment (seg : str) : option str :=
  match seg with
  | String "<"%char rest =>
      match String.rev rest with
      | String ">"%char eman => Some (String.rev eman)
      | _ => None
      end
  | _ => None
  end.

Fixpoint match_segments (pattern path : list str) (values : gmap str str)
  : option (gmap str str) :=
  match pattern, path with
  | [], [] => Some values
  | p :: pattern, s :: path =>
      match variable_segment p with
      | Some name =>
          match s with
          | EmptyString => None
          | _ => match_segments pattern path (<[name := s]> values)
          end
      | None =>
          if String.eqb p s then match_segments pattern path values else None
      end
  | _, _ => None
  end.

(** A rule that ends in a slash asks for a redirect when the path comes
    without it and the method is one of the rule's. *)
Definition demo_rule_match (r : Rule) (path method : str) : RuleMatch :=
  match match_segments (segments (rule r)) (segments path) ∅ with
  | Some values => Match values
  | None =>
      match match_segments (segments (rule r)) (segments (path +:+ "/")) ∅ with
      | Some _ =>
          if existsb (String.eqb method) (methods r) then RequestSlash else NoMatch
      | None => NoMatch
      end
  end.

(** *** Router *)

Definition demo_session_call (c : RemoteCall) : CallOutcome :=
  let p := call_procedure c in
  if String.eqb p "com.example.hello"
  then CallPlaced (Succeeded (Mapping {[ "name" := SStr "Ann" ]}))
  else if String.eqb p "com.example.user"
  then CallPlaced (Succeeded (Mapping (<["visits" := SInt 3]> (SStr <$> call_kwargs c))))
  else if String.eqb p "com.example.boom"
  then CallPlaced (Failed (ApplicationError "boom"))
  else if String.eqb p "com.example.nothing"
  then CallPlaced (Succeeded (Single SNone))
  else if String.eqb p "com.example.down"
  then CallRaised "session is not attached to a transport"
  else if String.eqb p "com.example.lost"
  then CallPlaced (Failed (OtherFailure "TransportLost"))
  else CallPlaced (Failed (ApplicationError "wamp.error.no_such_procedure")).

Definition demo_error_page (status : Z) : bytes :=
  "<html><body><h1>" +:+ pretty status +:+ "</h1></body></html>".

#[export] Instance demo : Collaborators := {
  rule_match := demo_rule_match;
  get_template := demo_get_template;
  session_call := demo_session_call;
  error_page := demo_error_page;
}.

(** *** A configuration and its resource *)

Definition demo_config : Config :=
  {| wamp_realm := Some "realm1";
     templates := "templates";
     routes :=
       [ {| route_path := "/hello"; route_method := "GET";
            route_call := "com.example.hello"; route_render := "hello.html" |};
         {| route_path := "/user/<user>"; route_method := "get";
            route_call := "com.example.user"; route_render := "user.html" |};
         {| route_path := "/boom"; route_method := "GET";
            route_call := "com.example.boom"; route_render := "hello.html" |};
         {| route_path := "/nothing"; route_method := "GET";
            route_call := "com.example.nothing"; route_render := "hello.html" |};
         {| route_path := "/down"; route_method := "GET";
            route_call := "com.example.down"; route_render := "hello.html" |};
         {| route_path := "/submit"; route_method := "POST";
            route_call := "com.example.hello"; route_render := "hello.html" |};
         {| route_path := "/folder/"; route_method := "GET";
            route_call := "com.example.hello"; route_render := "hello.html" |} ] |}.

Definition empty_worker : Worker :=
  {| _router_session_factory := []; calls := []; next_object := 0 |}.

(** The resource [__init__] builds for [demo_config] under the path
    [app]; a resource without routes if construction failed. *)
Definition demo_resource : WapResource :=
  match __init__ empty_worker demo_config "app" with
  | (_, Some self) => self
  | (w, None) =>
      {| _worker := w; _config := demo_config; _session_cache := ∅;
         _realm_name := None; _default_session := None;
         _map_adapter := bind [] |}
  end.

Definition get (u : bytes) : Request := fresh_request "GET" u ∅.

Definition get_with_cookie (u token : bytes) : Request :=
  fresh_request "GET" u {[ "session_cookie" := token ]}.

Definition head (u : bytes) (cookies : gmap bytes bytes) : Request :=
  fresh_request "HEAD" u cookies.

Definition post (u : bytes) : Request := fresh_request "POST" u ∅.

(** The compiled form of the template [hello.html]. *)
Definition hello_template : Jinja2.Template :=
  {| Jinja2.template_name := "hello.html";
     Jinja2.render := render_nodes [TemplateData "Hello "; Output "name"] |}.

Definition ann : gmap str Scalar := {[ "name" := SStr "Ann" ]}.

(** The first session made for a cookie of [demo_resource]. *)
Definition first_cookie_session : ApplicationSession :=
  {| session_id := 1; session_realm := Some "realm1" |}.

(** [demo_resource] after a request with the session cookie [abc]. *)
Definition warm_resource : WapResource :=
  (resolve_session demo_resource (get_with_cookie "/app/hello" "abc")).1.

(** A resource whose default session is missing. *)
Definition broken_resource : WapResource :=
  {| _worker := _worker demo_resource; _config := demo_config;
     _session_cache := ∅; _realm_name := Some "realm1";
     _default_session := None;
     _map_adapter := _map_adapter demo_resource |}.

(** *** More requests, configurations and transports *)

(** Two clients with a cookie each and one without. *)
Definition three_requests : list Request :=
  [ get_with_cookie "/app/hello" "abc";
    get_with_cookie "/app/nope" "xyz";
    get "/app/hello" ].

Definition tokenless_requests : list Request :=
  [ get "/app/hello"; get_with_cookie "/app/boom" EmptyString; head "/app/nope" ∅ ].

(** A configuration whose only route is registered for POST. *)
Definition post_only_config : Config :=
  {| wamp_realm := Some "realm1";
     templates := "templates";
     routes :=
       [ {| route_path := "/submit"; route_method := "post";
            route_call := "com.example.hello"; route_render := "hello.html" |} ] |}.

Definition post_only_resource : WapResource :=
  match __init__ empty_worker post_only_config "app" with
  | (_, Some self) => self
  | (_, None) => broken_resource
  end.

(** A configuration that names a template the directory does not have. *)
Definition missing_template_config : Config :=
  {| wamp_realm := Some "realm1";
     templates := "templates";
     routes :=
       [ {| route_path := "/hello"; route_method := "GET";
            route_call := "com.example.hello"; route_render := "hello.html" |};
         {| route_path := "/lost"; route_method := "GET";
            route_call := "com.example.hello"; route_render := "absent.html" |} ] |}.

(** A transport whose personality has the service's own checker, one with
    a checker that turns every configuration down, and one with none. *)
Definition own_check_transport : Transport :=
  {| worker := empty_worker;
     personality := {| WEB_SERVICE_CHECKERS := {[ "wap" := check ]} |} |}.

Definition strict_transport : Transport :=
  {| worker := empty_worker;
     personality :=
       {| WEB_SERVICE_CHECKERS :=
            {[ "wap" := fun _ : Config => Some "invalid attribute in WAP configuration" ]} |} |}.

Definition bare_transport : Transport :=
  {| worker := empty_worker;
     personality := {| WEB_SERVICE_CHECKERS := ∅ |} |}.

(** A configuration with one route, to a procedure whose call fails
    because the session lost its transport. *)
Definition lost_config : Config :=
  {| wamp_realm := Some "realm1";
     templates := "templates";
     routes :=
       [ {| route_path := "/lost"; route_method := "GET";
            route_call := "com.example.lost"; route_render := "hello.html" |} ] |}.

Definition lost_resource : WapResource :=
  match __init__ empty_worker lost_config "app" with
  | (_, Some self) => self
  | (_, None) => broken_resource
  end.

(** A URI whose second byte is 0xFF. *)
Definition undecodable_uri : bytes :=
  String "/"%char (String (ascii_of_nat 255) EmptyString).

End Demo.


(** * Properties *)

Import Wamp Werkzeug Twisted Wap.

(** ** Text and the error page *)

Lemma app_cons (c : ascii) (a b : string) :
  String c a +:+ b = String c (a +:+ b).
Proof. reflexivity. Qed.

Lemma app_nil (b : string) : EmptyString +:+ b = b.
Proof. reflexivity. Qed.








Lemma app_nil_r (a : string) : a +:+ EmptyString = a.
Proof. induction a as [|c a IH]; [reflexivity | now rewrite app_cons, IH]. Qed.









(** ** The request object *)

Lemma finished_setResponseCode (c : Z) (r : Request) :
  finished (setResponseCode c r) = finished r.
Proof. reflexivity. Qed.

Lemma finished_write (data : bytes) (r : Request) :
  finished (write data r) = finished r.
Proof. reflexivity. Qed.

Lemma finished_set_template (t : Jinja2.Template) (r : Request) :
  finished (set_template t r) = finished r.
Proof. reflexivity. Qed.

Lemma finished_finish (r : Request) : finished (finish r) = S (finished r).
Proof. unfold finish. now destruct (sent_code r). Qed.




(** ** Session resolution *)

(** The four ways through [resolve_session]: the cookie is empty, its
    token is cached, its token is new, or there is no cookie. *)
Ltac resolve_cases self request :=
  unfold resolve_session;
  destruct (received_cookies request !! "session_cookie") as [[|c0 rest]|];
  [ | destruct (_session_cache self !! String c0 rest) | ]; cbn.

Lemma resolve_session_usable (self : WapResource) (request : Request) :
  well_formed self -> is_Some (resolve_session self request).2.
Proof. intros W. resolve_cases self request; eauto. Qed.


Lemma resolve_session_calls (self : WapResource) (request : Request) :
  calls (_worker (resolve_session self request).1) = calls (_worker self).
Proof. resolve_cases self request; reflexivity. Qed.

Lemma resolve_session_map_adapter (self : WapResource) (request : Request) :
  _map_adapter (resolve_session self request).1 = _map_adapter self.
Proof. resolve_cases self request; reflexivity. Qed.

(** Two requests in a row with the same non-empty token: the second gets
    the handle made for the first, and the resource does not change again. *)
Lemma second_request_reuses_session (self : WapResource) (first second : Request)
    (token : bytes) :
  received_cookies first !! "session_cookie" = Some token ->
  received_cookies second !! "session_cookie" = Some token ->
  token <> EmptyString ->
  let self1 := (resolve_session self first).1 in
  resolve_session self1 second = (self1, (resolve_session self first).2).
Proof.
  intros F S Ne. cbn zeta. unfold resolve_session at 1. rewrite S.
  destruct token as [|c0 rest]; [congruence |].
  unfold resolve_session. rewrite F.
  destruct (_session_cache self !! String c0 rest) as [session|] eqn:C; cbn.
  - now rewrite C.
  - now rewrite lookup_insert_eq.
Qed.

Section Properties.
Context `{Collaborators}.

(** ** Route matching *)


Lemma match_rules_method_not_allowed (rs : list Rule) (path method : str)
    (seen : list str) :
  Forall (fun r => rule_match r path method = NoMatch \/ Routing.wrong_method path method r) rs ->
  seen <> [] \/ Exists (Routing.wrong_method path method) rs ->
  exists valid, Routing.match_rules rs path method seen = MethodNotAllowed valid.
Proof.
  intros F. revert seen. induction F as [|r rs P _ IH]; intros seen S.
  - destruct S as [S|S]; [| inversion S].
    destruct seen; [congruence |]. cbn. eauto.
  - cbn [Routing.match_rules]. destruct P as [N|(rv & M & X & Ne)].
    + rewrite N. apply IH. destruct S as [S|S]; [now left |].
      inversion S as [? ? (rv & M & _)|]; subst; [congruence | now right].
    + rewrite M, X. apply IH. left.
      destruct (methods r); [congruence |]. now destruct seen.
Qed.


(** A constructed resource takes its realm from the configuration, starts
    with an empty session cache, and its default session is the one handle
    it added to the session factory, with the role anonymous. *)
Lemma init_state (worker : Worker) (config : Config) (path : str)
    (self : WapResource) :
  (__init__ worker config path).2 = Some self ->
  let default_session := {| session_id := next_object worker;
                            session_realm := wamp_realm config |} in
  _realm_name self = wamp_realm config
  /\ _session_cache self = ∅
  /\ _default_session self = Some default_session
  /\ default_method (_map_adapter self) = "GET"
  /\ _router_session_factory (_worker self)
     = (_router_session_factory worker
        ++ [ {| reg_session := default_session;
                reg_router := Some {| router_realm := wamp_realm config |};
                reg_authrole := "anonymous" |} ])%list.
Proof.
  unfold __init__. cbn.
  destruct (add_routes path (routes config)); cbn; [| discriminate].
  intros [= <-]. cbn. repeat split; reflexivity.
Qed.


(** The handler itself never finishes the request. *)
Lemma render_GET_finished (self : WapResource) (request : Request) :
  finished (render_GET self request).1.2 = finished request.
Proof.
  unfold render_GET.
  destruct (resolve_session self request) as [self1 [session|]]; [|reflexivity].
  destruct (Text.decode_utf8 (uri request)); [|reflexivity].
  destruct (Routing.match_ (_map_adapter self1) s) as [[p t] kw| | |]; try reflexivity.
  destruct (session_call _); reflexivity.
Qed.

(** A callback finishes the request once, but for the errback on a
    failure without an [error] attribute, which only sets the status. *)
Lemma fire_finished (d : Completion) (request : Request) :
  (forall class_name, d <> Failed (OtherFailure class_name)) ->
  finished (fire d request) = S (finished request).
Proof.
  intros N. destruct d as [result|[error|class_name]]; cbn [fire].
  - unfold _after_call_success. rewrite finished_finish.
    destruct (template request) as [t|]; [destruct (Jinja2.render t result)|];
      reflexivity.
  - unfold _after_call_error. cbn [fst]. now rewrite finished_finish.
  - now elim (N class_name).
Qed.

Lemma fire_without_error_text (class_name : str) (request : Request) :
  fire (Failed (OtherFailure class_name)) request = setResponseCode 500 request.
Proof. reflexivity. Qed.

(** Every path of a served request finishes the response once, the
    errback on a failure without an [error] attribute apart: there the
    response is never finished. *)
Lemma serve_finishes_once_unless_errback_raises (self : WapResource)
    (request : Request) :
  finished (serve self request).2 = S (finished request)
  \/ exists class_name,
       (render self request).2 = NOT_DONE_YET (Failed (OtherFailure class_name))
       /\ finished (serve self request).2 = finished request.
Proof.
  unfold serve.
  assert (F : finished (render self request).1.2 = finished request).
  { unfold render, render_HEAD.
    destruct (String.eqb (method request) "GET"); [apply render_GET_finished |].
    destruct (String.eqb (method request) "HEAD"); [apply render_GET_finished |].
    reflexivity. }
  destruct (render self request) as [[self1 request1] [body|d|e]]; cbn in F; cbn [snd].
  - left. rewrite finished_finish, <- F.
    now destruct (String.eqb (method request1) "HEAD").
  - destruct d as [result|[error|class_name]].
    + left. rewrite fire_finished, F; [reflexivity | discriminate].
    + left. rewrite fire_finished, F; [reflexivity | discriminate].
    + right. exists class_name. split; [reflexivity |].
      now rewrite fire_without_error_text.
  - left. destruct e; cbn [snd]; unfold processingFailed;
      now rewrite finished_finish, <- F.
Qed.

(** ** The branches of [render_GET] *)



Lemma render_GET_method_not_allowed (self self1 : WapResource) (request : Request)
    (session : ApplicationSession) (full_path : str) (valid : list str) :
  resolve_session self request = (self1, Some session) ->
  Text.decode_utf8 (uri request) = Some full_path ->
  Routing.match_ (_map_adapter self1) full_path = MethodNotAllowed valid ->
  render_GET self request
  = (self1, setResponseCode 511 request, Body (_render_error not_allowed_message)).
Proof. intros E D M. unfold render_GET. now rewrite E, D, M. Qed.

Lemma render_GET_found (self self1 : WapResource) (request : Request)
    (session : ApplicationSession) (full_path procedure : str)
    (t : Jinja2.Template) (kwargs : gmap str str) (d : Completion) :
  resolve_session self request = (self1, Some session) ->
  Text.decode_utf8 (uri request) = Some full_path ->
  Routing.match_ (_map_adapter self1) full_path = Found (procedure, t) kwargs ->
  let c := {| call_session := session; call_procedure := procedure;
              call_kwargs := kwargs |} in
  session_call c = CallPlaced d ->
  render_GET self request
  = (with_worker (record_call c (_worker self1)) self1,
     set_template t request, NOT_DONE_YET d).
Proof.
  intros E D M c C. unfold render_GET. rewrite E, D, M.
  assert (K : (if bool_decide (kwargs = ∅) then ∅ else kwargs) = kwargs).
  { case_bool_decide; congruence. }
  rewrite K. fold c. now rewrite C.
Qed.

(** What the handler does when the path matches rules that are all
    registered for other methods: status 511, the error page, no call. *)
Lemma render_GET_wrong_method (self : WapResource) (request : Request)
    (full_path : str) :
  well_formed self ->
  Text.decode_utf8 (uri request) = Some full_path ->
  let m := default_method (_map_adapter self) in
  Forall (fun r => rule_match r full_path m = NoMatch \/ Routing.wrong_method full_path m r)
         (rules (_map_adapter self)) ->
  Exists (Routing.wrong_method full_path m) (rules (_map_adapter self)) ->
  code (render_GET self request).1.2 = 511%Z
  /\ (render_GET self request).2 = Body (_render_error not_allowed_message)
  /\ calls (_worker (render_GET self request).1.1) = calls (_worker self).
Proof.
  intros W D m F X.
  pose proof (resolve_session_usable self request W) as U.
  pose proof (resolve_session_calls self request) as C.
  pose proof (resolve_session_map_adapter self request) as A.
  destruct (resolve_session self request) as [self1 session] eqn:E.
  cbn in U, C, A. destruct U as [s ->].
  destruct (match_rules_method_not_allowed _ _ _ [] F (or_intror X)) as [valid M].
  assert (M' : Routing.match_ (_map_adapter self1) full_path = MethodNotAllowed valid).
  { unfold Routing.match_. now rewrite A. }
  rewrite (render_GET_method_not_allowed _ _ _ _ _ _ E D M'). cbn [fst snd].
  split; [reflexivity |]. split; [reflexivity | exact C].
Qed.



(** What a GET request that reaches the call goes through: the callbacks
    run on the request as it came in, with the matched template attached. *)
Lemma serve_call_placed (self self1 : WapResource) (request : Request)
    (session : ApplicationSession) (full_path procedure : str)
    (t : Jinja2.Template) (kwargs : gmap str str) (d : Completion) :
  method request = "GET" ->
  resolve_session self request = (self1, Some session) ->
  Text.decode_utf8 (uri request) = Some full_path ->
  Routing.match_ (_map_adapter self1) full_path = Found (procedure, t) kwargs ->
  let c := {| call_session := session; call_procedure := procedure;
              call_kwargs := kwargs |} in
  session_call c = CallPlaced d ->
  serve self request
  = (with_worker (record_call c (_worker self1)) self1,
     fire d (set_template t request)).
Proof.
  intros G E D M c C. unfold serve, render. rewrite G. cbn [String.eqb Ascii.eqb Bool.eqb].
  now rewrite (render_GET_found _ _ _ _ _ _ _ _ _ E D M C).
Qed.

(** ** Order of the steps *)

(** C3, as the handler has it: the session is resolved first and the
    route matched afterwards.  Whatever the outcome of matching, the
    session cache and the session factory after [render_GET] are those
    left by session resolution; a remote call is placed only once the
    decoded path matched a route, with the session resolved before and
    the procedure and values of the match, and otherwise none is. *)
Theorem resolution_precedes_matching (self : WapResource) (request : Request) :
  let self1 := (resolve_session self request).1 in
  let self2 := (render_GET self request).1.1 in
  _session_cache self2 = _session_cache self1
  /\ _router_session_factory (_worker self2) = _router_session_factory (_worker self1)
  /\ (calls (_worker self2) = calls (_worker self)
      \/ exists session full_path procedure t kwargs,
           (resolve_session self request).2 = Some session
           /\ Text.decode_utf8 (uri request) = Some full_path
           /\ Routing.match_ (_map_adapter self1) full_path = Found (procedure, t) kwargs
           /\ calls (_worker self2)
              = (calls (_worker self)
                 ++ [ {| call_session := session; call_procedure := procedure;
                         call_kwargs := kwargs |} ])%list).
Proof.
  cbn zeta. unfold render_GET.
  pose proof (resolve_session_calls self request) as C.
  destruct (resolve_session self request) as [self1 [session|]]; cbn [fst snd] in *;
    [| now auto].
  destruct (Text.decode_utf8 (uri request)) as [full_path|]; cbn [fst snd];
    [| now auto].
  destruct (Routing.match_ (_map_adapter self1) full_path) as [[procedure t] kwargs| | |] eqn:M;
    cbn [fst snd unknown_error]; try (now auto).
  assert (K : (if bool_decide (kwargs = ∅) then ∅ else kwargs) = kwargs).
  { case_bool_decide; congruence. }
  rewrite K.
  assert (R : forall out,
    calls (_worker (with_worker (record_call out (_worker self1)) self1))
    = (calls (_worker self) ++ [out])%list).
  { intros out. cbn. now rewrite C. }
  destruct (session_call _); cbn [fst snd unknown_error];
    (split; [reflexivity |]; split; [reflexivity |]; right;
     exists session, full_path, procedure, t, kwargs;
     split; [reflexivity |]; split; [reflexivity |]; split; [exact M |];
     apply R).
Qed.

(** ** The session registry *)

(** C4, as the handler has it: a request without the session cookie, or
    with an empty one, gets the shared default handle and nothing changes;
    a non-empty token that is cached gets the cached handle and nothing
    changes; a non-empty token that is not cached gets a new handle bound
    to the realm of the resource, which is added to the session factory
    with the role anonymous, stored in the cache under the token and
    returned. *)
Theorem resolve_session_contract (self : WapResource) (request : Request) :
  (cookie_truth (received_cookies request !! "session_cookie") = false ->
   resolve_session self request = (self, _default_session self))
  /\ (forall token session,
        received_cookies request !! "session_cookie" = Some token ->
        token <> EmptyString ->
        _session_cache self !! token = Some session ->
        resolve_session self request = (self, Some session))
  /\ (forall token,
        received_cookies request !! "session_cookie" = Some token ->
        token <> EmptyString ->
        _session_cache self !! token = None ->
        let session := {| session_id := next_object (_worker self);
                          session_realm := _realm_name self |} in
        let self' := (resolve_session self request).1 in
        (resolve_session self request).2 = Some session
        /\ _session_cache self' = <[token := session]> (_session_cache self)
        /\ _router_session_factory (_worker self')
           = (_router_session_factory (_worker self)
              ++ [ {| reg_session := session; reg_router := None;
                      reg_authrole := "anonymous" |} ])%list
        /\ _default_session self' = _default_session self).
Proof.
  unfold resolve_session. split; [| split].
  - destruct (received_cookies request !! "session_cookie") as [[|c0 rest]|];
      cbn; congruence.
  - intros token session -> Ne C. destruct token as [|c0 rest]; [congruence |].
    now rewrite C.
  - intros token -> Ne C. destruct token as [|c0 rest]; [congruence |].
    rewrite C. cbn. repeat split; reflexivity.
Qed.

(** ** The callbacks *)





(** ** Dispatch on the HTTP method *)

(** C10, as the resource has it: a request whose method is neither GET
    nor HEAD never reaches [render_GET], whatever the routes of the
    resource: the dispatcher raises [UnsupportedMethod], the resource with
    its session cache, session factory and calls is left as it was, and no
    template is attached to the request. *)
Theorem other_methods_never_enter (self : WapResource) (request : Request) :
  method request <> "GET" ->
  method request <> "HEAD" ->
  render self request = (self, request, Raised (UnsupportedMethod ["GET"; "HEAD"]))
  /\ (serve self request).1 = self
  /\ template (serve self request).2 = template request.
Proof.
  intros G Hd.
  apply String.eqb_neq in G. apply String.eqb_neq in Hd.
  assert (R : render self request
              = (self, request, Raised (UnsupportedMethod ["GET"; "HEAD"]))).
  { unfold render. now rewrite G, Hd. }
  split; [exact R |].
  unfold serve. rewrite R. cbn [fst snd].
  split; [reflexivity |].
  unfold finish. now destruct (sent_code _).
Qed.

End Properties.

(** * The properties on concrete requests *)

Section Concrete.
Import Demo.

Example hello_template_compiled :
  from_string "hello.html" "Hello {{name}}" = Some hello_template.
Proof. reflexivity. Qed.

Example demo_resource_constructed :
  (__init__ empty_worker demo_config "app").2 = Some demo_resource.
Proof. reflexivity. Qed.

Example hello_served :
  let r := (serve demo_resource (get "/app/hello")).2 in
  sent_code r = Some 200%Z /\ written r = "Hello Ann" /\ finished r = 1.
Proof. vm_compute. auto. Qed.

Example user_served :
  written (serve demo_resource (get "/app/user/bob")).2 = "<p>bob: 3</p>".
Proof. vm_compute. reflexivity. Qed.

Example folder_redirect_is_unknown_error :
  let r := (serve demo_resource (get "/app/folder")).2 in
  sent_code r = Some 500%Z
  /\ written r = _render_error unknown_error_message +:+ demo_error_page 500
  /\ finished r = 1.
Proof. vm_compute. auto. Qed.

Example undecodable_uri_raises :
  (render_GET demo_resource (get (String (ascii_of_nat 47) (String (ascii_of_nat 255) EmptyString)))).2
  = Raised UnicodeDecodeError.
Proof. vm_compute. reflexivity. Qed.

Example boom_served :
  let r := (serve demo_resource (get "/app/boom")).2 in
  sent_code r = Some 500%Z /\ written r = _render_error "boom" /\ finished r = 1.
Proof. vm_compute. auto. Qed.

Example nothing_served :
  let r := (serve demo_resource (get "/app/nothing")).2 in
  sent_code r = Some 500%Z
  /\ written r = _render_error (render_error_message (Single SNone)
                                  "'NoneType' object is not iterable")
  /\ finished r = 1.
Proof. vm_compute. auto. Qed.

Example down_served :
  let r := (serve demo_resource (get "/app/down")).2 in
  sent_code r = Some 500%Z
  /\ written r = _render_error unknown_error_message +:+ demo_error_page 500
  /\ finished r = 1.
Proof. vm_compute. auto. Qed.


(** C6 on the code: a GET request on the path of a route registered for
    POST is answered with status 511, which is not a client error; the
    error page is rendered and no call is placed. *)
Theorem method_mismatch_answers_511 :
  let request := get "/app/submit" in
  let '(self', request', out) := render_GET demo_resource request in
  Routing.match_ (_map_adapter demo_resource) "/app/submit" = MethodNotAllowed ["POST"]
  /\ code request' = 511%Z
  /\ client_error (code request') = false
  /\ out = Body (_render_error not_allowed_message)
  /\ calls (_worker self') = [].
Proof. vm_compute. repeat split; reflexivity. Qed.

(** C3 refuted: a request with a new session cookie whose path matches no
    route is answered with 404, and yet a session was created for it,
    added to the session factory and stored in the cache. *)
Lemma unmatched_request_registers_session :
  let request := get_with_cookie "/app/nope" "abc" in
  let self' := (render_GET demo_resource request).1.1 in
  Routing.match_ (_map_adapter demo_resource) "/app/nope" = NotFound
  /\ code (render_GET demo_resource request).1.2 = 404%Z
  /\ _session_cache demo_resource !! "abc" = None
  /\ _session_cache self' !! "abc" = Some first_cookie_session
  /\ length (_router_session_factory (_worker demo_resource)) = 1
  /\ _router_session_factory (_worker self')
     = (_router_session_factory (_worker demo_resource)
        ++ [ {| reg_session := first_cookie_session; reg_router := None;
                reg_authrole := "anonymous" |} ])%list.
Proof. vm_compute. repeat split; reflexivity. Qed.

(** C4 refuted: the session cookie is present with an empty value and
    nothing is cached under it, yet no handle is created: the default
    handle is returned and the resource is unchanged. *)
Lemma empty_token_gets_default_session :
  let request := get_with_cookie "/app/hello" EmptyString in
  received_cookies request !! "session_cookie" = Some EmptyString
  /\ _session_cache demo_resource !! EmptyString = None
  /\ (resolve_session demo_resource request).2 = _default_session demo_resource
  /\ _session_cache (resolve_session demo_resource request).1 = ∅
  /\ _router_session_factory (_worker (resolve_session demo_resource request).1)
     = _router_session_factory (_worker demo_resource).
Proof. vm_compute. repeat split; reflexivity. Qed.

(** C10 refuted: a HEAD request is handed to [render_GET]: a session is
    created for its cookie, its path is matched and the remote call is
    placed. *)
Lemma head_request_enters_pipeline :
  let request := head "/app/hello" {[ "session_cookie" := "abc" ]} in
  let '(self', request', out) := render demo_resource request in
  method request <> "GET"
  /\ _session_cache self' !! "abc" = Some first_cookie_session
  /\ Jinja2.template_name <$> template request' = Some "hello.html"
  /\ calls (_worker self')
     = [ {| call_session := first_cookie_session;
            call_procedure := "com.example.hello"; call_kwargs := ∅ |} ]
  /\ out = NOT_DONE_YET (Succeeded (Mapping ann)).
Proof. vm_compute. repeat split; try reflexivity. discriminate. Qed.

End Concrete.

(** * The theorems at work on the concrete resource *)

Section Witnesses.
Import Demo.

Lemma demo_resource_well_formed : well_formed demo_resource.
Proof. eexists. reflexivity. Defined.

Lemma resolve_session_contract_witness :
  resolve_session demo_resource (get "/app/hello")
  = (demo_resource, _default_session demo_resource)
  /\ resolve_session warm_resource (get_with_cookie "/app/hello" "abc")
     = (warm_resource, Some first_cookie_session)
  /\ (resolve_session demo_resource (get_with_cookie "/app/hello" "abc")).2
     = Some first_cookie_session
  /\ _session_cache warm_resource !! "abc" = Some first_cookie_session
  /\ length (_router_session_factory (_worker warm_resource)) = 2.
Proof.
  split; [| split].
  - destruct (resolve_session_contract demo_resource (get "/app/hello")) as (A & _ & _).
    apply A. reflexivity.
  - destruct (resolve_session_contract warm_resource
                (get_with_cookie "/app/hello" "abc")) as (_ & B & _).
    apply (B "abc" first_cookie_session); [reflexivity | discriminate | reflexivity].
  - destruct (resolve_session_contract demo_resource
                (get_with_cookie "/app/hello" "abc")) as (_ & _ & C).
    destruct (C "abc") as (C1 & C2 & C3 & _); [reflexivity | discriminate | reflexivity |].
    split; [exact C1 |]. split.
    + unfold warm_resource. rewrite C2. apply lookup_insert_eq.
    + unfold warm_resource. rewrite C3. reflexivity.
Defined.





Lemma other_methods_never_enter_witness :
  let request := post "/app/submit" in
  Routing.match_ (_map_adapter demo_resource) "/app/submit" <> NotFound
  /\ render demo_resource request
     = (demo_resource, request, Raised (UnsupportedMethod ["GET"; "HEAD"]))
  /\ (serve demo_resource request).1 = demo_resource
  /\ sent_code (serve demo_resource request).2 = Some 405%Z.
Proof.
  cbn zeta. split; [discriminate |].
  destruct (other_methods_never_enter demo_resource (post "/app/submit"))
    as (A & B & _); [discriminate | discriminate |].
  split; [exact A |]. split; [exact B | reflexivity].
Defined.

End Witnesses.

(** * Further properties of the resource *)

(** ** What one request does to the resource *)

(** The three outcomes of session resolution, with what each leaves. *)
Lemma resolve_session_shape (self : WapResource) (request : Request) :
  (cookie_truth (received_cookies request !! "session_cookie") = false
   /\ resolve_session self request = (self, _default_session self))
  \/ (exists token s,
        received_cookies request !! "session_cookie" = Some token
        /\ token <> EmptyString
        /\ _session_cache self !! token = Some s
        /\ resolve_session self request = (self, Some s))
  \/ (exists token self',
        let s := {| session_id := next_object (_worker self);
                    session_realm := _realm_name self |} in
        received_cookies request !! "session_cookie" = Some token
        /\ token <> EmptyString
        /\ _session_cache self !! token = None
        /\ resolve_session self request = (self', Some s)
        /\ _session_cache self' = <[token := s]> (_session_cache self)
        /\ _router_session_factory (_worker self')
           = (_router_session_factory (_worker self)
              ++ [ {| reg_session := s; reg_router := None;
                      reg_authrole := "anonymous" |} ])%list
        /\ next_object (_worker self') = S (next_object (_worker self))
        /\ calls (_worker self') = calls (_worker self)
        /\ _default_session self' = _default_session self
        /\ _realm_name self' = _realm_name self
        /\ _map_adapter self' = _map_adapter self
        /\ _config self' = _config self).
Proof.
  unfold resolve_session.
  destruct (received_cookies request !! "session_cookie") as [[|c0 rest]|] eqn:K.
  - left. split; reflexivity.
  - destruct (_session_cache self !! String c0 rest) as [s|] eqn:C.
    + right. left. exists (String c0 rest), s.
      split; [reflexivity |]. split; [discriminate |]. split; [exact C | reflexivity].
    + right. right. eexists (String c0 rest), _. cbn zeta.
      split; [reflexivity |]. split; [discriminate |]. split; [exact C |].
      split; [reflexivity |]. cbn. repeat (split; [reflexivity |]). reflexivity.
  - left. split; reflexivity.
Qed.

(** ** Invariants of the session registry *)

(** The session that resolution returns is one the resource then holds. *)
Lemma resolve_session_holds (self : WapResource) (request : Request)
    (s : ApplicationSession) :
  (resolve_session self request).2 = Some s ->
  holds (resolve_session self request).1 s.
Proof.
  destruct (resolve_session_shape self request)
    as [[_ E]|[(t & s' & _ & _ & C & E)|(t & self' & _ & _ & _ & E & I & _)]];
    rewrite E; cbn [fst snd]; intros S.
  - now left.
  - right. exists t. congruence.
  - right. exists t. rewrite I, lookup_insert_eq. exact S.
Qed.

Lemma resolve_session_fresh (self : WapResource) (request : Request) :
  sessions_fresh self -> sessions_fresh (resolve_session self request).1.
Proof.
  intros F.
  destruct (resolve_session_shape self request)
    as [[_ E]|[(t & s' & _ & _ & _ & E)
             |(t & self' & _ & _ & _ & E & I & _ & N & _ & D & _)]];
    rewrite E; cbn [fst]; try exact F.
  intros s [Hd|[t' Hc]]; rewrite N.
  - rewrite D in Hd. specialize (F s (or_introl Hd)). lia.
  - rewrite I in Hc. destruct (decide (t = t')) as [<-|Ne].
    + rewrite lookup_insert_eq in Hc. injection Hc as <-. cbn. lia.
    + rewrite lookup_insert_ne in Hc by exact Ne.
      assert (L : session_id s < next_object (_worker self)) by (apply F; right; eauto).
      lia.
Qed.

Lemma resolve_session_distinct (self : WapResource) (request : Request) :
  sessions_fresh self -> sessions_distinct self ->
  sessions_distinct (resolve_session self request).1.
Proof.
  intros F [Dc Dd].
  destruct (resolve_session_shape self request)
    as [[_ E]|[(t & s' & _ & _ & _ & E)
             |(t & self' & _ & _ & _ & E & I & _ & _ & _ & D & _)]];
    rewrite E; cbn [fst]; try (split; assumption).
  assert (New : forall t', _session_cache self !! t'
                           <> Some {| session_id := next_object (_worker self);
                                      session_realm := _realm_name self |}).
  { intros t' C. assert (L := F _ (or_intror (ex_intro _ t' C))). cbn in L. lia. }
  split.
  - intros t1 t2 s. rewrite I.
    destruct (decide (t = t1)) as [<-|N1], (decide (t = t2)) as [<-|N2];
      rewrite ?lookup_insert_eq, ?lookup_insert_ne by assumption.
    + reflexivity.
    + intros [= <-] C. now elim (New t2).
    + intros C [= <-]. now elim (New t1).
    + apply Dc.
  - intros t' s. rewrite I, D.
    destruct (decide (t = t')) as [<-|N1];
      rewrite ?lookup_insert_eq, ?lookup_insert_ne by assumption.
    + intros [= <-] Hd. assert (L := F _ (or_introl Hd)). cbn in L. lia.
    + apply Dd.
Qed.

Lemma registered_more (w w' : Worker) (s : ApplicationSession) (extra : list Registration) :
  _router_session_factory w' = (_router_session_factory w ++ extra)%list ->
  registered w s -> registered w' s.
Proof.
  intros E (reg & I & R). exists reg. split; [| exact R].
  rewrite E. apply in_or_app. now left.
Qed.

Lemma resolve_session_registered (self : WapResource) (request : Request) :
  sessions_registered self -> sessions_registered (resolve_session self request).1.
Proof.
  intros [Rh Rc].
  destruct (resolve_session_shape self request)
    as [[_ E]|[(t & s' & _ & _ & _ & E)
             |(t & self' & _ & _ & _ & E & I & Fa & _ & Ca & D & _)]];
    rewrite E; cbn [fst]; try (split; assumption).
  split.
  - intros s [Hd|[t' Hc]].
    + rewrite D in Hd. eapply registered_more; [exact Fa | apply Rh; now left].
    + rewrite I in Hc. destruct (decide (t = t')) as [<-|Ne].
      * rewrite lookup_insert_eq in Hc. injection Hc as <-.
        eexists. split; [rewrite Fa; apply in_or_app; right; left; reflexivity |].
        split; reflexivity.
      * rewrite lookup_insert_ne in Hc by exact Ne.
        eapply registered_more; [exact Fa | apply Rh; right; eauto].
  - rewrite Ca. eapply Forall_impl; [exact Rc |].
    intros c. cbn beta. eapply registered_more. exact Fa.
Qed.

Lemma resolve_session_in_realm (self : WapResource) (request : Request) :
  sessions_in_realm self -> sessions_in_realm (resolve_session self request).1.
Proof.
  intros R.
  destruct (resolve_session_shape self request)
    as [[_ E]|[(t & s' & _ & _ & _ & E)
             |(t & self' & _ & _ & _ & E & I & _ & _ & _ & D & Re & _)]];
    rewrite E; cbn [fst]; try exact R.
  intros s [Hd|[t' Hc]]; rewrite Re.
  - rewrite D in Hd. apply R. now left.
  - rewrite I in Hc. destruct (decide (t = t')) as [<-|Ne].
    + rewrite lookup_insert_eq in Hc. now injection Hc as <-.
    + rewrite lookup_insert_ne in Hc by exact Ne. apply R. right. eauto.
Qed.

(** The four invariants together. *)
Lemma registry_invariant_resolve (self : WapResource) (request : Request) :
  registry_invariant self ->
  registry_invariant (resolve_session self request).1.
Proof.
  intros (F & D & R & I).
  split; [now apply resolve_session_fresh |].
  split; [now apply resolve_session_distinct |].
  split; [now apply resolve_session_registered | now apply resolve_session_in_realm].
Qed.

Section Lifetime_properties.
Context `{Collaborators}.

(** The resource after a request: untouched, or as session resolution left
    it, or that with one call recorded, placed through the session that was
    resolved. *)
Lemma serve_shape (self : WapResource) (request : Request) :
  let self1 := (resolve_session self request).1 in
  (serve self request).1 = self
  \/ (serve self request).1 = self1
  \/ exists c, (serve self request).1 = with_worker (record_call c (_worker self1)) self1
               /\ (resolve_session self request).2 = Some (call_session c).
Proof.
  cbn zeta.
  assert (G : let self1 := (resolve_session self request).1 in
              (render_GET self request).1.1 = self1
              \/ exists c, (render_GET self request).1.1
                           = with_worker (record_call c (_worker self1)) self1
                           /\ (resolve_session self request).2 = Some (call_session c)).
  { cbn zeta. unfold render_GET.
    destruct (resolve_session self request) as [self1 [session|]]; cbn [fst snd];
      [| now left].
    destruct (Text.decode_utf8 (uri request)) as [full_path|]; [| now left].
    destruct (Routing.match_ (_map_adapter self1) full_path) as [[procedure t] kwargs| | |];
      try (now left).
    destruct (session_call _); cbn [fst snd unknown_error];
      right; eexists; split; reflexivity. }
  assert (R : (serve self request).1 = (render self request).1.1).
  { unfold serve. now destruct (render self request) as [[self1 request1] [body|d|[]]]. }
  rewrite R. unfold render, render_HEAD.
  destruct (String.eqb (method request) "GET"); [right; exact G |].
  destruct (String.eqb (method request) "HEAD"); [right; exact G |].
  now left.
Qed.

(** X1: a request never drops or replaces an entry of the session cache:
    a token that is cached keeps its handle. *)
Theorem session_cache_never_evicts (self : WapResource) (request : Request)
    (token : bytes) (s : ApplicationSession) :
  _session_cache self !! token = Some s ->
  _session_cache (serve self request).1 !! token = Some s.
Proof.
  intros C.
  assert (C1 : _session_cache (resolve_session self request).1 !! token = Some s).
  { destruct (resolve_session_shape self request)
      as [[_ E]|[(t & s' & _ & _ & _ & E)|(t & self' & _ & _ & N & E & I & _)]];
      rewrite E; cbn [fst]; try exact C.
    rewrite I. rewrite lookup_insert_ne; [exact C | congruence]. }
  destruct (serve_shape self request) as [E|[E|(c & E & _)]]; rewrite E;
    [exact C | exact C1 | exact C1].
Qed.

End Lifetime_properties.

Section Registry.
Context `{Collaborators}.

Lemma registry_invariant_serve (self : WapResource) (request : Request) :
  registry_invariant self -> registry_invariant (serve self request).1.
Proof.
  intros Inv.
  pose proof (registry_invariant_resolve self request Inv) as Inv1.
  destruct (serve_shape self request) as [E|[E|(c & E & S)]]; rewrite E;
    [exact Inv | exact Inv1 |].
  apply resolve_session_holds in S.
  destruct Inv1 as (F & D & [Rh Rc] & I).
  split; [exact F |]. split; [exact D |]. split; [| exact I].
  split; [exact Rh |].
  cbn. apply Forall_app. split; [exact Rc |].
  constructor; [| constructor]. now apply Rh.
Qed.

Lemma registry_invariant_serve_all (requests : list Request) (self : WapResource) :
  registry_invariant self -> registry_invariant (serve_all self requests).1.
Proof.
  revert self. induction requests as [|request rest IH]; intros self Inv; [exact Inv |].
  cbn [serve_all].
  pose proof (registry_invariant_serve self request Inv) as Inv1.
  destruct (serve self request) as [self1 done]. cbn [fst] in Inv1.
  specialize (IH self1 Inv1).
  destruct (serve_all self1 rest) as [self2 dones]. exact IH.
Qed.

Lemma registry_invariant_init (worker : Worker) (config : Config) (path : str)
    (self : WapResource) :
  Forall (fun c => registered worker (call_session c)) (calls worker) ->
  (__init__ worker config path).2 = Some self ->
  registry_invariant self.
Proof.
  intros Rc. unfold __init__. cbn.
  destruct (add_routes path (routes config)); cbn; [| discriminate].
  intros [= <-].
  split; [| split; [| split]].
  - intros s [[= <-]|[t C]]; cbn in *; [lia |]. now rewrite lookup_empty in C.
  - split; cbn; intros *; now rewrite lookup_empty.
  - split; cbn.
    + intros s [[= <-]|[t C]]; cbn in *; [| now rewrite lookup_empty in C].
      eexists. split; [apply in_or_app; right; left; reflexivity |].
      split; reflexivity.
    + eapply Forall_impl; [exact Rc |]. intros c (reg & I & R).
      exists reg. split; [| exact R]. cbn. apply in_or_app. now left.
  - intros s [[= <-]|[t C]]; cbn in *; [reflexivity |]. now rewrite lookup_empty in C.
Qed.

Lemma serve_all_keeps_configuration (requests : list Request) (self : WapResource) :
  let self' := (serve_all self requests).1 in
  _realm_name self' = _realm_name self
  /\ _default_session self' = _default_session self
  /\ _map_adapter self' = _map_adapter self.
Proof.
  cbn zeta. revert self. induction requests as [|request rest IH]; intros self; [auto |].
  cbn [serve_all].
  assert (K : _realm_name (serve self request).1 = _realm_name self
              /\ _default_session (serve self request).1 = _default_session self
              /\ _map_adapter (serve self request).1 = _map_adapter self).
  { assert (Kr : let self1 := (resolve_session self request).1 in
                 _realm_name self1 = _realm_name self
                 /\ _default_session self1 = _default_session self
                 /\ _map_adapter self1 = _map_adapter self).
    { cbn zeta.
      destruct (resolve_session_shape self request)
        as [[_ E]|[(t & s' & _ & _ & _ & E)
                 |(t & self' & _ & _ & _ & E & _ & _ & _ & _ & D & R & A & G)]];
        rewrite E; cbn [fst]; auto. }
    destruct (serve_shape self request) as [E|[E|(c & E & _)]]; rewrite E; auto. }
  destruct (serve self request) as [self1 done]. cbn [fst] in K.
  specialize (IH self1).
  destruct (serve_all self1 rest) as [self2 dones]. cbn [fst] in *.
  destruct K as (K1 & K2 & K3), IH as (I1 & I2 & I3).
  repeat split; congruence.
Qed.

(** X3: in a resource built by [__init__], whatever requests it has served
    since, no session handle is shared: two different tokens have two
    different handles, and no token has the default handle. *)
Theorem sessions_never_shared (worker : Worker) (config : Config) (path : str)
    (self0 : WapResource) (requests : list Request) :
  (__init__ worker config path).2 = Some self0 ->
  let self := (serve_all self0 requests).1 in
  (forall t1 t2 s1 s2,
      _session_cache self !! t1 = Some s1 ->
      _session_cache self !! t2 = Some s2 ->
      t1 <> t2 -> s1 <> s2)
  /\ (forall t s, _session_cache self !! t = Some s -> _default_session self <> Some s).
Proof.
  intros I. cbn zeta.
  assert (Inv0 : sessions_fresh self0 /\ sessions_distinct self0).
  { unfold __init__ in I. cbn in I.
    destruct (add_routes path (routes config)); cbn in I; [| discriminate].
    injection I as <-. split.
    - intros s [[= <-]|[t C]]; cbn in *; [lia |]. now rewrite lookup_empty in C.
    - split; cbn; intros *; now rewrite lookup_empty. }
  assert (Inv : forall requests self,
             sessions_fresh self /\ sessions_distinct self ->
             sessions_fresh (serve_all self requests).1
             /\ sessions_distinct (serve_all self requests).1).
  { clear. intros requests.
    induction requests as [|request rest IH]; intros self Inv; [exact Inv |].
    cbn [serve_all].
    assert (Inv1 : sessions_fresh (serve self request).1
                   /\ sessions_distinct (serve self request).1).
    { destruct Inv as [F D].
      pose proof (resolve_session_fresh self request F) as F1.
      pose proof (resolve_session_distinct self request F D) as D1.
      destruct (serve_shape self request) as [E|[E|(c & E & _)]]; rewrite E;
        split; assumption. }
    destruct (serve self request) as [self1 done]. cbn [fst] in Inv1.
    specialize (IH self1 Inv1).
    destruct (serve_all self1 rest) as [self2 dones]. exact IH. }
  destruct (Inv requests self0 Inv0) as [_ [Dc Dd]].
  split; [| exact Dd].
  intros t1 t2 s1 s2 C1 C2 Ne ->. apply Ne. eapply Dc; eassumption.
Qed.

(** X5: in a resource built by [__init__], whatever requests it has served
    since, every handle it holds, the default one and the cached ones, is
    bound to the realm named in the configuration. *)
Theorem sessions_bound_to_configured_realm (worker : Worker) (config : Config)
    (path : str) (self0 : WapResource) (requests : list Request) :
  (__init__ worker config path).2 = Some self0 ->
  let self := (serve_all self0 requests).1 in
  forall s, holds self s -> session_realm s = wamp_realm config.
Proof.
  intros I. cbn zeta.
  assert (R0 : _realm_name self0 = wamp_realm config /\ sessions_in_realm self0).
  { unfold __init__ in I. cbn in I.
    destruct (add_routes path (routes config)); cbn in I; [| discriminate].
    injection I as <-. split; [reflexivity |].
    intros s [[= <-]|[t C]]; cbn in *; [reflexivity |]. now rewrite lookup_empty in C. }
  destruct R0 as [Re R0].
  assert (Inv : forall requests self,
             sessions_in_realm self -> sessions_in_realm (serve_all self requests).1).
  { clear. intros requests.
    induction requests as [|request rest IH]; intros self Inv; [exact Inv |].
    cbn [serve_all].
    assert (Inv1 : sessions_in_realm (serve self request).1).
    { pose proof (resolve_session_in_realm self request Inv) as R1.
      destruct (serve_shape self request) as [E|[E|(c & E & _)]]; rewrite E; assumption. }
    destruct (serve self request) as [self1 done]. cbn [fst] in Inv1.
    specialize (IH self1 Inv1).
    destruct (serve_all self1 rest) as [self2 dones]. exact IH. }
  intros s Hs. rewrite (Inv requests self0 R0 s Hs).
  destruct (serve_all_keeps_configuration requests self0) as (K & _). now rewrite K.
Qed.

End Registry.

(** ** What the handler does to the request *)

Section Request_effects.
Context `{Collaborators}.


(** X7: on a resource with its default session, a response that goes out
    with status 200 is the rendered template of a call that succeeded: the
    call was placed by this request, its Deferred fired with a result, and
    what was written is the markup the matched template rendered for it.
    No error page goes out with status 200. *)
Theorem status_200_means_rendered (self : WapResource) (m u : bytes)
    (cookies : gmap bytes bytes) :
  well_formed self ->
  let request := fresh_request m u cookies in
  let self' := (serve self request).1 in
  let r := (serve self request).2 in
  sent_code r = Some 200%Z ->
  exists c t result html,
    calls (_worker self') = (calls (_worker self) ++ [c])%list
    /\ session_call c = CallPlaced (Succeeded result)
    /\ template r = Some t
    /\ Jinja2.render t result = Jinja2.Rendered html
    /\ written r = Text.encode_utf8 html.
Proof.
  intros W. cbn zeta.
  pose proof (resolve_session_usable self (fresh_request m u cookies) W) as U.
  pose proof (resolve_session_calls self (fresh_request m u cookies)) as C.
  assert (G : render self (fresh_request m u cookies)
              = render_GET self (fresh_request m u cookies) ->
              sent_code (serve self (fresh_request m u cookies)).2 = Some 200%Z ->
              exists c t result html,
                calls (_worker (serve self (fresh_request m u cookies)).1)
                = (calls (_worker self) ++ [c])%list
                /\ session_call c = CallPlaced (Succeeded result)
                /\ template (serve self (fresh_request m u cookies)).2 = Some t
                /\ Jinja2.render t result = Jinja2.Rendered html
                /\ written (serve self (fresh_request m u cookies)).2
                   = Text.encode_utf8 html).
  { intros Eq. unfold serve. rewrite Eq. unfold render_GET.
    destruct (resolve_session self (fresh_request m u cookies)) as [self1 session].
    cbn [fst snd] in U, C. destruct U as [s ->].
    destruct (Text.decode_utf8 (uri (fresh_request m u cookies))) as [full_path|];
      [| cbn; discriminate].
    destruct (Routing.match_ (_map_adapter self1) full_path)
      as [[procedure t] kwargs| | |]; cbn [unknown_error].
    - destruct (session_call _) as [text|[result|error]] eqn:S; cbn [unknown_error fst snd].
      + cbn. discriminate.
      + unfold fire, _after_call_success. cbn [template set_template].
        destruct (Jinja2.render t result) as [html|text] eqn:R.
        * intros _. eexists _, t, result, html.
          split; [cbn; now rewrite C |]. split; [exact S |].
          split; [reflexivity |]. split; [exact R | reflexivity].
        * cbn. discriminate.
      + destruct error; cbn; discriminate.
    - cbn [fst snd]. destruct (String.eqb _ "HEAD"); cbn; discriminate.
    - cbn [fst snd]. destruct (String.eqb _ "HEAD"); cbn; discriminate.
    - cbn. discriminate. }
  destruct (String.eqb m "GET") eqn:Mg.
  - apply G. unfold render. change (method (fresh_request m u cookies)) with m.
    now rewrite Mg.
  - destruct (String.eqb m "HEAD") eqn:Mh.
    + apply G. unfold render, render_HEAD.
      change (method (fresh_request m u cookies)) with m. now rewrite Mg, Mh.
    + unfold serve, render. change (method (fresh_request m u cookies)) with m.
      rewrite Mg, Mh. cbn [fst snd].
      set (status := if existsb _ _ then _ else _).
      assert (Ns : status <> 200%Z)
        by (subst status; destruct (existsb _ _); discriminate).
      cbn. intros [= E]. congruence.
Qed.

End Request_effects.

(** ** The registry from one request to the next *)

Section Registry_steps.
Context `{Collaborators}.

(** A GET or HEAD request leaves the cache, the session factory and the
    object counter as session resolution left them, and records at most one
    call, placed through the session that was resolved. *)
Lemma serve_registry (self : WapResource) (request : Request) :
  method request = "GET" \/ method request = "HEAD" ->
  let self1 := (resolve_session self request).1 in
  let self' := (serve self request).1 in
  _session_cache self' = _session_cache self1
  /\ _router_session_factory (_worker self') = _router_session_factory (_worker self1)
  /\ next_object (_worker self') = next_object (_worker self1)
  /\ (calls (_worker self') = calls (_worker self)
      \/ exists c, calls (_worker self') = (calls (_worker self) ++ [c])%list
                   /\ (resolve_session self request).2 = Some (call_session c)).
Proof.
  intros M. cbn zeta.
  assert (R : (serve self request).1 = (render_GET self request).1.1).
  { unfold serve, render, render_HEAD.
    destruct M as [-> | ->]; cbn [String.eqb Ascii.eqb Bool.eqb];
      now destruct (render_GET self request) as [[self1 request1] [body|d|[]]]. }
  rewrite R. unfold render_GET.
  pose proof (resolve_session_calls self request) as C.
  destruct (resolve_session self request) as [self1 [session|]]; cbn [fst snd] in *;
    [| now auto].
  destruct (Text.decode_utf8 (uri request)) as [full_path|]; cbn [fst snd]; [| now auto].
  destruct (Routing.match_ (_map_adapter self1) full_path) as [[procedure t] kwargs| | |];
    cbn [fst snd unknown_error]; try (now auto).
  destruct (session_call _); cbn [fst snd unknown_error];
    (split; [reflexivity |]; split; [reflexivity |]; split; [reflexivity |];
     right; eexists; split; [cbn; rewrite C; reflexivity | reflexivity]).
Qed.

(** X8: a GET or HEAD request with a non-empty token that is not cached
    makes the cache one entry larger and the session factory one
    registration longer, whether or not its path matches a route; the new
    entry is the handle with the next object identity. *)
Theorem new_token_grows_registry (self : WapResource) (request : Request)
    (token : bytes) :
  method request = "GET" \/ method request = "HEAD" ->
  received_cookies request !! "session_cookie" = Some token ->
  token <> EmptyString ->
  _session_cache self !! token = None ->
  let self' := (serve self request).1 in
  size (_session_cache self') = S (size (_session_cache self))
  /\ length (_router_session_factory (_worker self'))
     = S (length (_router_session_factory (_worker self)))
  /\ _session_cache self' !! token
     = Some {| session_id := next_object (_worker self);
               session_realm := _realm_name self |}.
Proof.
  intros M K Ne N. cbn zeta.
  destruct (serve_registry self request M) as (Ec & Ef & _ & _).
  rewrite Ec, Ef.
  destruct (resolve_session_shape self request)
    as [[T _]|[(t & s' & K' & _ & C' & _)|(t & self' & K' & _ & _ & E & I & Fa & _)]].
  - rewrite K in T. destruct token; [congruence | discriminate].
  - congruence.
  - assert (t = token) as -> by congruence.
    rewrite E. cbn [fst]. rewrite I, Fa.
    split; [now apply map_size_insert_None |].
    split; [| apply lookup_insert_eq].
    rewrite length_app. cbn. lia.
Qed.

(** X9: of two requests in a row with the same non-empty token, the first
    a GET or HEAD, the second finds the handle of the first in the cache:
    it changes neither the cache nor the session factory, and a call it
    places goes through that handle. *)
Theorem same_token_registers_once (self : WapResource) (first second : Request)
    (token : bytes) :
  method first = "GET" \/ method first = "HEAD" ->
  received_cookies first !! "session_cookie" = Some token ->
  received_cookies second !! "session_cookie" = Some token ->
  token <> EmptyString ->
  let self1 := (serve self first).1 in
  let self2 := (serve self1 second).1 in
  exists s,
    _session_cache self1 !! token = Some s
    /\ _session_cache self2 = _session_cache self1
    /\ _router_session_factory (_worker self2) = _router_session_factory (_worker self1)
    /\ (calls (_worker self2) = calls (_worker self1)
        \/ exists c, calls (_worker self2) = (calls (_worker self1) ++ [c])%list
                     /\ call_session c = s).
Proof.
  intros M K1 K2 Ne. cbn zeta.
  destruct (serve_registry self first M) as (Ec & _).
  assert (Cached : exists s, _session_cache (serve self first).1 !! token = Some s).
  { rewrite Ec.
    destruct (resolve_session_shape self first)
      as [[T _]|[(t & s' & K' & _ & C' & E)|(t & self' & K' & _ & _ & E & I & _)]].
    - rewrite K1 in T. destruct token; [congruence | discriminate].
    - rewrite E. cbn [fst]. exists s'. congruence.
    - rewrite E. cbn [fst]. rewrite I. eexists.
      assert (t = token) as -> by congruence. apply lookup_insert_eq. }
  destruct Cached as [s Cs]. exists s. split; [exact Cs |].
  set (self1 := (serve self first).1) in *.
  assert (R : resolve_session self1 second = (self1, Some s)).
  { destruct (resolve_session_shape self1 second)
      as [[T _]|[(t & s' & K' & _ & C' & E)|(t & self' & K' & _ & N & _)]].
    - rewrite K2 in T. destruct token; [congruence | discriminate].
    - rewrite E. assert (t = token) as -> by congruence. congruence.
    - assert (t = token) as -> by congruence. congruence. }
  destruct (serve_shape self1 second) as [E|[E|(c & E & S)]]; rewrite ?R in *;
    cbn [fst snd] in *; rewrite E.
  - auto.
  - auto.
  - split; [reflexivity |]. split; [reflexivity |]. right. exists c.
    split; [reflexivity | congruence].
Qed.

(** X10: requests that carry no session token, or an empty one, leave the
    registry alone however many they are: the cache and the session factory
    stay as they were, and every call placed for them goes through the
    default session. *)
Theorem tokenless_requests_share_default (requests : list Request)
    (self : WapResource) :
  Forall (fun r => cookie_truth (received_cookies r !! "session_cookie") = false)
         requests ->
  let self' := (serve_all self requests).1 in
  _session_cache self' = _session_cache self
  /\ _router_session_factory (_worker self') = _router_session_factory (_worker self)
  /\ exists placed,
       calls (_worker self') = (calls (_worker self) ++ placed)%list
       /\ Forall (fun c => _default_session self = Some (call_session c)) placed.
Proof.
  cbn zeta. intros F. revert self.
  induction F as [|request rest T _ IH]; intros self.
  - cbn. split; [reflexivity |]. split; [reflexivity |].
    exists []. split; [now rewrite List.app_nil_r | constructor].
  - cbn [serve_all].
    assert (R : resolve_session self request = (self, _default_session self)).
    { destruct (resolve_session_shape self request)
        as [[_ E]|[(t & s' & K' & Ne & _)|(t & self' & K' & Ne & _)]]; [exact E | |];
        rewrite K' in T; destruct t; congruence || discriminate. }
    assert (S : _session_cache (serve self request).1 = _session_cache self
                /\ _router_session_factory (_worker (serve self request).1)
                   = _router_session_factory (_worker self)
                /\ _default_session (serve self request).1 = _default_session self
                /\ exists placed,
                     calls (_worker (serve self request).1)
                     = (calls (_worker self) ++ placed)%list
                     /\ Forall (fun c => _default_session self = Some (call_session c))
                               placed).
    { destruct (serve_shape self request) as [E|[E|(c & E & Sc)]]; rewrite ?R in *;
        cbn [fst snd] in *; rewrite E.
      - repeat (split; [reflexivity |]). exists []. split; [now rewrite List.app_nil_r | constructor].
      - repeat (split; [reflexivity |]). exists []. split; [now rewrite List.app_nil_r | constructor].
      - repeat (split; [reflexivity |]). exists [c]. split; [reflexivity |].
        constructor; [exact Sc | constructor]. }
    destruct (serve self request) as [self1 done]. cbn [fst] in S.
    destruct S as (Sc & Sf & Sd & placed1 & Sp & Fp).
    specialize (IH self1).
    destruct (serve_all self1 rest) as [self2 dones]. cbn [fst] in *.
    destruct IH as (Ic & If & placed2 & Ip & Fq).
    split; [congruence |]. split; [congruence |].
    exists (placed1 ++ placed2)%list. split.
    + rewrite Ip, Sp. now rewrite <- List.app_assoc.
    + apply Forall_app. split; [exact Fp |]. now rewrite <- Sd.
Qed.

End Registry_steps.

(** ** Construction and the route table *)

Section Construction.
Context `{Collaborators}.

Lemma add_routes_none (path : str) (rs : list Route) :
  add_routes path rs = None
  <-> Exists (fun route => get_template (route_render route) = None) rs.
Proof.
  induction rs as [|route rest IH]; cbn [add_routes].
  - split; [discriminate | intros E; inversion E].
  - destruct (get_template (route_render route)) as [t|] eqn:T.
    + destruct (add_routes path rest) as [map|].
      * split; [discriminate |]. intros E.
        inversion E as [? ? T'|? ? E']; subst; [congruence |].
        apply IH in E'. discriminate.
      * split; [| reflexivity]. intros _. right. now apply IH.
    + split; [| reflexivity]. intros _. now left.
Qed.

Lemma add_routes_some (path : str) (rs : list Route) (map : list Rule) :
  add_routes path rs = Some map ->
  Forall2 (fun r route =>
             exists t, get_template (route_render route) = Some t
                       /\ r = Rule_init ("/" +:+ path +:+ route_path route)
                                        [route_method route] (route_call route, t))
          map rs.
Proof.
  revert map. induction rs as [|route rest IH]; intros map; cbn [add_routes].
  - intros [= <-]. constructor.
  - destruct (get_template (route_render route)) as [t|] eqn:T; [| discriminate].
    destruct (add_routes path rest) as [map'|]; [| discriminate].
    intros [= <-]. constructor; [| now apply IH].
    exists t. split; [exact T | reflexivity].
Qed.

Lemma Rule_init_methods (url m : str) (e : Endpoint) :
  methods (Rule_init url [m] e)
  = if String.eqb (upper m) "GET" then ["GET"; "HEAD"] else [upper m].
Proof.
  unfold Rule_init. cbn [methods map existsb].
  destruct (String.eqb_spec (upper m) "GET") as [E|Ne].
  - rewrite E. reflexivity.
  - assert (X : String.eqb "GET" (upper m) = false)
      by (apply String.eqb_neq; congruence).
    now rewrite X.
Qed.

Lemma match_rules_found (rs : list Rule) (path method : str) (seen : list str)
    (e : Endpoint) (values : gmap str str) :
  Routing.match_rules rs path method seen = Found e values ->
  exists r, In r rs /\ endpoint r = e
            /\ rule_match r path method = Match values
            /\ existsb (String.eqb method) (methods r) = true.
Proof.
  revert seen. induction rs as [|r rest IH]; intros seen; cbn [Routing.match_rules].
  - destruct seen; discriminate.
  - destruct (rule_match r path method) as [|rv|] eqn:M.
    + intros F. destruct (IH _ F) as (r' & I & R). exists r'. split; [now right | exact R].
    + destruct (existsb (String.eqb method) (methods r)) eqn:X.
      * intros [= <- <-]. exists r. split; [now left |]. auto.
      * intros F. destruct (IH _ F) as (r' & I & R). exists r'.
        split; [now right | exact R].
    + discriminate.
Qed.

(** The rule [__init__] makes for a route answers the method GET only if
    the configured method is GET, in whatever case it is written. *)
Lemma rule_allows_get (url m : str) (e : Endpoint) :
  existsb (String.eqb "GET") (methods (Rule_init url [m] e)) = true ->
  upper m = "GET".
Proof.
  rewrite Rule_init_methods.
  destruct (String.eqb_spec (upper m) "GET") as [E|Ne]; [now intros _ |].
  cbn [existsb]. rewrite orb_false_r. intros X.
  apply String.eqb_eq in X. congruence.
Qed.

(** X13: on a constructed resource, a path is matched only through a
    configured route whose method is GET (in any case): the procedure that
    is called and the template that renders its result are those of one and
    the same route of the configuration. *)
Theorem found_route_is_configured (worker : Worker) (config : Config) (path : str)
    (self : WapResource) (full_path procedure : str) (t : Jinja2.Template)
    (kwargs : gmap str str) :
  (__init__ worker config path).2 = Some self ->
  Routing.match_ (_map_adapter self) full_path = Found (procedure, t) kwargs ->
  exists route,
    In route (routes config)
    /\ upper (route_method route) = "GET"
    /\ route_call route = procedure
    /\ get_template (route_render route) = Some t.
Proof.
  unfold __init__. cbn.
  destruct (add_routes path (routes config)) as [map|] eqn:A; cbn; [| discriminate].
  intros [= <-]. unfold Routing.match_. cbn. intros F.
  apply match_rules_found in F. destruct F as (r & I & E & _ & X).
  apply add_routes_some in A.
  assert (R : exists route, In route (routes config)
                            /\ exists t', get_template (route_render route) = Some t'
                                          /\ r = Rule_init ("/" +:+ path +:+ route_path route)
                                                           [route_method route]
                                                           (route_call route, t')).
  { clear -A I. induction A as [|r' route map rest P _ IH]; [inversion I |].
    destruct I as [<-|I].
    - exists route. split; [now left | exact P].
    - destruct (IH I) as (route' & I' & P'). exists route'. split; [now right | exact P']. }
  destruct R as (route & Ir & t' & T & ->).
  exists route. split; [exact Ir |].
  split; [now apply rule_allows_get in X |].
  cbn in E. injection E as <- <-. split; [reflexivity | exact T].
Qed.

End Construction.

Section Reach.
Context `{Collaborators}.

Lemma init_rule_origin (worker : Worker) (config : Config) (path : str)
    (self : WapResource) (r : Rule) :
  (__init__ worker config path).2 = Some self ->
  In r (rules (_map_adapter self)) ->
  exists route t,
    In route (routes config)
    /\ r = Rule_init ("/" +:+ path +:+ route_path route) [route_method route]
                     (route_call route, t).
Proof.
  unfold __init__. cbn.
  destruct (add_routes path (routes config)) as [map|] eqn:A; cbn; [| discriminate].
  intros [= <-]. cbn. intros I.
  apply add_routes_some in A.
  induction A as [|r' route map rest (t & _ & P) _ IH]; [inversion I |].
  destruct I as [<-|I].
  - exists route, t. split; [now left | exact P].
  - destruct (IH I) as (route' & t' & I' & P'). exists route', t'.
    split; [now right | exact P'].
Qed.

(** A request records a call only if its path matched a route. *)
Lemma serve_calls_need_match (self : WapResource) (request : Request) :
  calls (_worker (serve self request).1) = calls (_worker self)
  \/ exists full_path e values,
       Routing.match_ (_map_adapter self) full_path = Found e values.
Proof.
  assert (G : calls (_worker (render_GET self request).1.1) = calls (_worker self)
              \/ exists full_path e values,
                   Routing.match_ (_map_adapter self) full_path = Found e values).
  { unfold render_GET.
    pose proof (resolve_session_calls self request) as C.
    pose proof (resolve_session_map_adapter self request) as A.
    destruct (resolve_session self request) as [self1 [session|]]; cbn [fst snd] in *;
      [| now left].
    destruct (Text.decode_utf8 (uri request)) as [full_path|]; [| now left].
    rewrite A.
    destruct (Routing.match_ (_map_adapter self) full_path) as [e values| | |] eqn:M;
      try (now left).
    right. eauto. }
  assert (R : (serve self request).1 = (render self request).1.1).
  { unfold serve. now destruct (render self request) as [[self1 request1] [body|d|[]]]. }
  rewrite R. unfold render, render_HEAD.
  destruct (String.eqb (method request) "GET"); [exact G |].
  destruct (String.eqb (method request) "HEAD"); [exact G |].
  now left.
Qed.

(** X14: a resource built from a configuration in which no route has the
    method GET (in any case) never places a remote call, whatever requests
    it serves: the matcher is always asked for GET, so a route configured
    for another method is never served. *)
Theorem no_get_route_no_call (worker : Worker) (config : Config) (path : str)
    (self0 : WapResource) (requests : list Request) :
  (__init__ worker config path).2 = Some self0 ->
  Forall (fun route => upper (route_method route) <> "GET") (routes config) ->
  calls (_worker (serve_all self0 requests).1) = calls (_worker self0).
Proof.
  intros I N.
  assert (D : default_method (_map_adapter self0) = "GET").
  { unfold __init__ in I. cbn in I.
    destruct (add_routes path (routes config)); cbn in I; [| discriminate].
    now injection I as <-. }
  assert (Never : forall full_path e values,
             Routing.match_ (_map_adapter self0) full_path <> Found e values).
  { intros full_path e values F. unfold Routing.match_ in F. rewrite D in F.
    apply match_rules_found in F. destruct F as (r & Ir & _ & _ & X).
    destruct (init_rule_origin _ _ _ _ _ I Ir) as (route & t & In_route & ->).
    apply rule_allows_get in X.
    exact (proj1 (List.Forall_forall _ _) N route In_route X). }
  assert (Step : forall requests self,
             _map_adapter self = _map_adapter self0 ->
             calls (_worker (serve_all self requests).1) = calls (_worker self)).
  { clear -Never. intros requests.
    induction requests as [|request rest IH]; intros self A; [reflexivity |].
    cbn [serve_all].
    assert (C : calls (_worker (serve self request).1) = calls (_worker self)).
    { destruct (serve_calls_need_match self request) as [C|(p & e & v & F)]; [exact C |].
      rewrite A in F. now elim (Never p e v). }
    assert (A1 : _map_adapter (serve self request).1 = _map_adapter self0).
    { destruct (serve_all_keeps_configuration [request] self) as (_ & _ & K).
      cbn [serve_all] in K.
      destruct (serve self request) as [self1 done]. cbn [fst] in *. congruence. }
    destruct (serve self request) as [self1 done]. cbn [fst] in *.
    specialize (IH self1 A1).
    destruct (serve_all self1 rest) as [self2 dones]. cbn [fst] in *. congruence. }
  now apply Step.
Qed.

(** ** The web service *)

(** X15: [create] builds nothing for a configuration that no checker
    accepted: when no checker is registered under the name wap, or the one
    registered raises, [create] fails before the resource is constructed and
    the worker is left as it was, with no session added. *)
Theorem create_rejected_builds_nothing (transport : Transport) (path : str)
    (config : Config) :
  (forall checker, WEB_SERVICE_CHECKERS (personality transport) !! "wap" = Some checker ->
                   checker config <> None) ->
  (create transport path config).1 = worker transport
  /\ exists e, (create transport path config).2 = inl e /\ e <> TemplateNotFound.
Proof.
  intros R. unfold create.
  destruct (WEB_SERVICE_CHECKERS (personality transport) !! "wap") as [checker|] eqn:K.
  - specialize (R checker eq_refl).
    destruct (checker config) as [message|]; [| congruence].
    split; [reflexivity |]. eexists. split; [reflexivity | discriminate].
  - split; [reflexivity |]. eexists. split; [reflexivity | discriminate].
Qed.

End Reach.

(** ** The error page and plain messages *)

Lemma length_app_string (a b : string) :
  String.length (a +:+ b) = String.length a + String.length b.
Proof.
  induction a as [|c a IH]; [reflexivity |].
  rewrite app_cons. cbn [String.length]. now rewrite IH.
Qed.

Lemma escape_length (s : str) :
  String.length s <= String.length (Werkzeug_utils.escape s).
Proof.
  induction s as [|c s IH]; [reflexivity |].
  cbn [Werkzeug_utils.escape]. rewrite length_app_string. cbn [String.length].
  assert (L : 1 <= String.length (Werkzeug_utils.escape_char c)).
  { unfold Werkzeug_utils.escape_char.
    repeat (destruct (Ascii.eqb c _); [cbn; lia |]). cbn. lia. }
  lia.
Qed.

Lemma contains_amp_cons (c : ascii) (s : str) :
  Text.contains "&" (String c s) = Ascii.eqb c "&" || Text.contains "&" s.
Proof.
  cbn [Text.contains String.prefix].
  destruct (Ascii.ascii_dec "&" c) as [<-|Ne].
  - now destruct s.
  - destruct (Ascii.eqb_spec c "&") as [E|_]; [now elim Ne | reflexivity].
Qed.

(** Escaping leaves a text as it is exactly when the text has none of the
    four characters that are replaced. *)
Lemma escape_fixes_plain_text (message : str) :
  Werkzeug_utils.escape message = message
  <-> Werkzeug_utils.free_of_markup message = true
      /\ Text.contains "&" message = false.
Proof.
  induction message as [|c s IH]; [now split |].
  cbn [Werkzeug_utils.escape Werkzeug_utils.free_of_markup].
  rewrite contains_amp_cons. unfold Werkzeug_utils.escape_char, Werkzeug_utils.special.
  pose proof (escape_length s) as L.
  destruct (Ascii.eqb_spec c "&") as [->|Na].
  { split; [| intros [_ X]; discriminate].
    intros E. exfalso. rewrite !app_cons, app_nil in E. injection E as E.
    apply (f_equal String.length) in E. cbn [String.length] in E. lia. }
  destruct (Ascii.eqb_spec c "<") as [->|Nl].
  { split; [| intros [X _]; discriminate]. intros E. discriminate E. }
  destruct (Ascii.eqb_spec c ">") as [->|Ng].
  { split; [| intros [X _]; discriminate]. intros E. discriminate E. }
  destruct (Ascii.eqb_spec c Text.dquote) as [->|Nq].
  { split; [| intros [X _]; discriminate]. intros E. discriminate E. }
  rewrite app_cons, app_nil. cbn [negb orb andb].
  split.
  - intros [= E]. now apply IH.
  - intros P. f_equal. now apply IH.
Qed.

Lemma string_app_inv_head (a b c : string) : a +:+ b = a +:+ c -> b = c.
Proof.
  induction a as [|x a IH]; [now rewrite !app_nil |].
  rewrite !app_cons. intros [= E]. now apply IH.
Qed.

Lemma string_app_inv_tail (a b c : string) : a +:+ c = b +:+ c -> a = b.
Proof.
  revert b. induction a as [|x a IH]; intros [|y b]; rewrite ?app_nil, ?app_cons.
  - reflexivity.
  - intros E. apply (f_equal String.length) in E.
    cbn [String.length] in E. rewrite length_app_string in E. lia.
  - intros E. apply (f_equal String.length) in E.
    cbn [String.length] in E. rewrite length_app_string in E. lia.
  - intros [= -> E]. f_equal. now apply IH.
Qed.

(** X17: the error page carries a message verbatim, between the two halves
    of the fixed shell, exactly when the message has none of the four
    characters that are escaped (ampersand, the two angle brackets, the
    double quote); any other message comes out changed. *)
Theorem plain_message_is_kept (message : str) :
  _render_error message = shell_head +:+ message +:+ shell_tail
  <-> Werkzeug_utils.free_of_markup message = true
      /\ Text.contains "&" message = false.
Proof.
  rewrite <- escape_fixes_plain_text. unfold _render_error, Text.encode_utf8.
  split.
  - intros E. apply string_app_inv_head in E. now apply string_app_inv_tail in E.
  - now intros ->.
Qed.

Section Edges.
Context `{Collaborators}.

(** X18: a URI that is not well-formed UTF-8 takes the request past the
    error handling of the handler: [render_GET] raises the decode error
    with no status set and nothing written, after the session was resolved
    and before any matching or call; the response is then the 500 page of
    twisted.web alone, without the error page of the resource. *)
Theorem undecodable_uri_escapes_error_page (self : WapResource) (m u : bytes)
    (cookies : gmap bytes bytes) :
  well_formed self ->
  m = "GET" \/ m = "HEAD" ->
  Text.decode_utf8 u = None ->
  let request := fresh_request m u cookies in
  (render_GET self request).2 = Raised UnicodeDecodeError
  /\ (render_GET self request).1.2 = request
  /\ (serve self request).1 = (resolve_session self request).1
  /\ sent_code (serve self request).2 = Some 500%Z
  /\ written (serve self request).2 = error_page 500
  /\ finished (serve self request).2 = 1.
Proof.
  intros W M D. cbn zeta.
  pose proof (resolve_session_usable self (fresh_request m u cookies) W) as U.
  assert (R : render_GET self (fresh_request m u cookies)
              = ((resolve_session self (fresh_request m u cookies)).1,
                 fresh_request m u cookies, Raised UnicodeDecodeError)).
  { unfold render_GET.
    destruct (resolve_session self (fresh_request m u cookies)) as [self1 session].
    cbn [fst snd] in *. destruct U as [s ->].
    change (uri (fresh_request m u cookies)) with u. now rewrite D. }
  rewrite R. cbn [fst snd]. split; [reflexivity |]. split; [reflexivity |].
  assert (S : serve self (fresh_request m u cookies)
              = ((resolve_session self (fresh_request m u cookies)).1,
                 processingFailed (fresh_request m u cookies))).
  { unfold serve, render, render_HEAD.
    change (method (fresh_request m u cookies)) with m.
    destruct M as [-> | ->]; cbn [String.eqb Ascii.eqb Bool.eqb]; now rewrite R. }
  rewrite S. cbn [fst snd]. repeat split; reflexivity.
Qed.


End Edges.

(** ** The further properties at work on the concrete resource *)

Section More_witnesses.
Import Demo.

Lemma post_only_resource_constructed :
  (__init__ empty_worker post_only_config "app").2 = Some post_only_resource.
Proof. reflexivity. Defined.

Lemma session_cache_never_evicts_witness :
  _session_cache warm_resource !! "abc" = Some first_cookie_session
  /\ _session_cache (serve warm_resource (get_with_cookie "/app/nope" "xyz")).1 !! "abc"
     = Some first_cookie_session.
Proof.
  assert (C : _session_cache warm_resource !! "abc" = Some first_cookie_session)
    by (vm_compute; reflexivity).
  split; [exact C |].
  exact (session_cache_never_evicts warm_resource
           (get_with_cookie "/app/nope" "xyz") "abc" first_cookie_session C).
Defined.

Lemma sessions_never_shared_witness :
  let self := (serve_all demo_resource three_requests).1 in
  exists s1 s2,
    _session_cache self !! "abc" = Some s1
    /\ _session_cache self !! "xyz" = Some s2
    /\ s1 <> s2
    /\ _default_session self <> Some s1.
Proof.
  cbn zeta.
  destruct (sessions_never_shared empty_worker demo_config "app" demo_resource
              three_requests demo_resource_constructed) as [D Dd].
  exists {| session_id := 1; session_realm := Some "realm1" |},
         {| session_id := 2; session_realm := Some "realm1" |}.
  assert (A : _session_cache (serve_all demo_resource three_requests).1 !! "abc"
              = Some {| session_id := 1; session_realm := Some "realm1" |})
    by (vm_compute; reflexivity).
  assert (B : _session_cache (serve_all demo_resource three_requests).1 !! "xyz"
              = Some {| session_id := 2; session_realm := Some "realm1" |})
    by (vm_compute; reflexivity).
  split; [exact A |]. split; [exact B |].
  split; [apply (D "abc" "xyz" _ _ A B); discriminate | exact (Dd "abc" _ A)].
Defined.

Lemma sessions_bound_to_configured_realm_witness :
  let self := (serve_all demo_resource three_requests).1 in
  _session_cache self !! "xyz" = Some {| session_id := 2; session_realm := Some "realm1" |}
  /\ session_realm {| session_id := 2; session_realm := Some "realm1" |}
     = wamp_realm demo_config.
Proof.
  cbn zeta.
  assert (B : _session_cache (serve_all demo_resource three_requests).1 !! "xyz"
              = Some {| session_id := 2; session_realm := Some "realm1" |})
    by (vm_compute; reflexivity).
  split; [exact B |].
  apply (sessions_bound_to_configured_realm empty_worker demo_config "app"
           demo_resource three_requests demo_resource_constructed).
  right. exists "xyz". exact B.
Defined.

Lemma status_200_means_rendered_witness :
  well_formed demo_resource
  /\ sent_code (serve demo_resource (fresh_request "GET" "/app/hello" ∅)).2 = Some 200%Z
  /\ exists c t result html,
       calls (_worker (serve demo_resource (fresh_request "GET" "/app/hello" ∅)).1)
       = (calls (_worker demo_resource) ++ [c])%list
       /\ session_call c = CallPlaced (Succeeded result)
       /\ template (serve demo_resource (fresh_request "GET" "/app/hello" ∅)).2 = Some t
       /\ Jinja2.render t result = Jinja2.Rendered html
       /\ written (serve demo_resource (fresh_request "GET" "/app/hello" ∅)).2
          = Text.encode_utf8 html.
Proof.
  assert (S : sent_code (serve demo_resource (fresh_request "GET" "/app/hello" ∅)).2
              = Some 200%Z) by (vm_compute; reflexivity).
  split; [exact demo_resource_well_formed |]. split; [exact S |].
  exact (status_200_means_rendered demo_resource "GET" "/app/hello" ∅
           demo_resource_well_formed S).
Defined.

Lemma new_token_grows_registry_witness :
  let self' := (serve demo_resource (get_with_cookie "/app/nope" "abc")).1 in
  size (_session_cache demo_resource) = 0
  /\ size (_session_cache self') = 1
  /\ length (_router_session_factory (_worker self')) = 2.
Proof.
  cbn zeta.
  destruct (new_token_grows_registry demo_resource (get_with_cookie "/app/nope" "abc")
              "abc" (or_introl eq_refl) eq_refl) as (A & B & _);
    [discriminate | reflexivity |].
  split; [reflexivity |]. split; [exact A | exact B].
Defined.

Lemma same_token_registers_once_witness :
  let self1 := (serve demo_resource (get_with_cookie "/app/nope" "abc")).1 in
  let self2 := (serve self1 (get_with_cookie "/app/hello" "abc")).1 in
  exists s,
    _session_cache self1 !! "abc" = Some s
    /\ _session_cache self2 = _session_cache self1
    /\ _router_session_factory (_worker self2) = _router_session_factory (_worker self1).
Proof.
  cbn zeta.
  destruct (same_token_registers_once demo_resource
              (get_with_cookie "/app/nope" "abc") (get_with_cookie "/app/hello" "abc")
              "abc" (or_introl eq_refl) eq_refl eq_refl) as (s & A & B & C & _);
    [discriminate |].
  exists s. split; [exact A |]. split; [exact B | exact C].
Defined.

Lemma tokenless_requests_share_default_witness :
  let self' := (serve_all demo_resource tokenless_requests).1 in
  _session_cache self' = ∅
  /\ length (_router_session_factory (_worker self')) = 1
  /\ exists placed,
       calls (_worker self') = placed
       /\ Forall (fun c => _default_session demo_resource = Some (call_session c)) placed.
Proof.
  cbn zeta.
  destruct (tokenless_requests_share_default tokenless_requests demo_resource)
    as (A & B & placed & C & D).
  { repeat constructor. }
  split; [exact A |]. split; [rewrite B; reflexivity |].
  exists placed. split; [exact C | exact D].
Defined.

Lemma found_route_is_configured_witness :
  exists route,
    In route (routes demo_config)
    /\ upper (route_method route) = "GET"
    /\ route_call route = "com.example.user"
    /\ get_template (route_render route) = demo_get_template "user.html".
Proof.
  assert (T : exists t, demo_get_template "user.html" = Some t
                        /\ Routing.match_ (_map_adapter demo_resource) "/app/user/bob"
                           = Found ("com.example.user", t) {[ "user" := "bob" ]}).
  { eexists. split; vm_compute; reflexivity. }
  destruct T as (t & G & M).
  destruct (found_route_is_configured empty_worker demo_config "app" demo_resource
              "/app/user/bob" "com.example.user" t _
              demo_resource_constructed M)
    as (route & I & U & C & R).
  exists route. rewrite G. auto.
Defined.

Lemma no_get_route_no_call_witness :
  calls (_worker (serve_all post_only_resource
                    [get "/app/submit"; post "/app/submit"; head "/app/submit" ∅]).1)
  = [].
Proof.
  apply (no_get_route_no_call empty_worker post_only_config "app" post_only_resource
           [get "/app/submit"; post "/app/submit"; head "/app/submit" ∅]
           post_only_resource_constructed).
  repeat constructor. discriminate.
Defined.

Lemma create_rejected_builds_nothing_witness :
  (create strict_transport "app" demo_config).1 = empty_worker
  /\ (create bare_transport "app" demo_config).1 = empty_worker.
Proof.
  split.
  - apply (create_rejected_builds_nothing strict_transport "app" demo_config).
    intros checker K. vm_compute in K. injection K as <-. discriminate.
  - apply (create_rejected_builds_nothing bare_transport "app" demo_config).
    intros checker K. vm_compute in K. discriminate.
Defined.

Lemma undecodable_uri_escapes_error_page_witness :
  let request := fresh_request "GET" undecodable_uri ∅ in
  Text.decode_utf8 undecodable_uri = None
  /\ (render_GET demo_resource request).2 = Raised UnicodeDecodeError
  /\ sent_code (serve demo_resource request).2 = Some 500%Z
  /\ written (serve demo_resource request).2 = demo_error_page 500.
Proof.
  cbn zeta. split; [reflexivity |].
  destruct (undecodable_uri_escapes_error_page demo_resource "GET" undecodable_uri ∅
              demo_resource_well_formed (or_introl eq_refl) eq_refl)
    as (A & _ & _ & B & C & _).
  split; [exact A |]. split; [exact B | exact C].
Defined.

End More_witnesses.

(** ** A matched request *)

Section Matched.
Context `{Collaborators}.

Lemma template_finish (r : Request) : template (finish r) = template r.
Proof. unfold finish. now destruct (sent_code r). Qed.

Lemma template_fire (d : Completion) (r : Request) : template (fire d r) = template r.
Proof.
  destruct d as [result|[error|class_name]]; cbn [fire].
  - unfold _after_call_success. rewrite template_finish.
    destruct (template r) as [t|] eqn:E; [destruct (Jinja2.render t result) |];
      cbn; exact E.
  - unfold _after_call_error. cbn [fst]. now rewrite template_finish.
  - reflexivity.
Qed.

(** X20: a GET request whose decoded path matches a route places exactly
    one call: through the session resolved for the request, for the
    procedure of the matched route, with exactly the values the matcher
    took from the path as keyword arguments (none when there are none); and
    the template of that route is the one attached to the request.  This
    holds whether the call then hands back a Deferred or raises. *)
Theorem matched_request_places_one_call (self : WapResource) (request : Request)
    (full_path procedure : str) (t : Jinja2.Template) (kwargs : gmap str str) :
  well_formed self ->
  method request = "GET" ->
  Text.decode_utf8 (uri request) = Some full_path ->
  Routing.match_ (_map_adapter self) full_path = Found (procedure, t) kwargs ->
  exists session,
    (resolve_session self request).2 = Some session
    /\ calls (_worker (serve self request).1)
       = (calls (_worker self)
          ++ [ {| call_session := session; call_procedure := procedure;
                  call_kwargs := kwargs |} ])%list
    /\ template (serve self request).2 = Some t.
Proof.
  intros W G D M.
  pose proof (resolve_session_usable self request W) as U.
  pose proof (resolve_session_calls self request) as C.
  pose proof (resolve_session_map_adapter self request) as A.
  unfold serve, render. rewrite G. cbn [String.eqb Ascii.eqb Bool.eqb].
  unfold render_GET.
  destruct (resolve_session self request) as [self1 session]. cbn [fst snd] in *.
  destruct U as [s ->]. exists s. split; [reflexivity |].
  rewrite D, A, M.
  assert (K : (if bool_decide (kwargs = ∅) then ∅ else kwargs) = kwargs).
  { case_bool_decide; congruence. }
  rewrite K.
  destruct (session_call _) as [text|d]; cbn [unknown_error fst snd].
  - split; [cbn; now rewrite C |].
    unfold processingFailed. now rewrite template_finish.
  - split; [cbn; now rewrite C |].
    now rewrite template_fire.
Qed.

End Matched.

Section Matched_witness.
Import Demo.

Lemma matched_request_places_one_call_witness :
  calls (_worker (serve demo_resource (get "/app/user/bob")).1)
  = [ {| call_session := {| session_id := 0; session_realm := Some "realm1" |};
         call_procedure := "com.example.user";
         call_kwargs := {[ "user" := "bob" ]} |} ]
  /\ Jinja2.template_name <$> template (serve demo_resource (get "/app/user/bob")).2
     = Some "user.html".
Proof.
  assert (T : exists t, demo_get_template "user.html" = Some t
                        /\ Routing.match_ (_map_adapter demo_resource) "/app/user/bob"
                           = Found ("com.example.user", t) {[ "user" := "bob" ]}).
  { eexists. split; vm_compute; reflexivity. }
  destruct T as (t & Gt & M).
  destruct (matched_request_places_one_call demo_resource (get "/app/user/bob")
              "/app/user/bob" "com.example.user" t {[ "user" := "bob" ]}
              demo_resource_well_formed eq_refl eq_refl M) as (session & R & C & Tm).
  split.
  - rewrite C. vm_compute in R. injection R as <-. reflexivity.
  - rewrite Tm. vm_compute in Gt. injection Gt as <-. reflexivity.
Defined.

End Matched_witness.

(** ** The default session is always there *)

Section Availability.
Context `{Collaborators}.




End Availability.

(** ** Concrete requests: the revised claims *)

Section Revised.
Import Demo.

Example lost_resource_constructed :
  (__init__ empty_worker lost_config "app").2 = Some lost_resource.
Proof. reflexivity. Qed.


(** C2 on the code: a GET request on a route whose call fails with a
    [TransportLost] failure.  The errback sets status 500 and then raises
    on reading the [error] attribute, before [write] and [finish]: the
    response is never finished and nothing is sent. *)
Theorem errback_without_error_text_never_finishes :
  let request := get "/app/lost" in
  let r := (serve lost_resource request).2 in
  (render lost_resource request).2
  = NOT_DONE_YET (Failed (OtherFailure "TransportLost"))
  /\ finished r = 0
  /\ code r = 500%Z
  /\ sent_code r = None
  /\ written r = EmptyString.
Proof. vm_compute. repeat split; reflexivity. Qed.



(** What is matched is the URI as it came, query string and all: the path
    of this request matches no rule, the URI does, and the call is placed
    with the query string in the value of the path variable. *)
Example query_string_is_matched :
  let request := get "/app/user/?a" in
  Forall (fun r => rule_match r "/app/user/" "GET" = NoMatch)
         (rules (_map_adapter demo_resource))
  /\ sent_code (serve demo_resource request).2 = Some 200%Z
  /\ call_kwargs <$> calls (_worker (serve demo_resource request).1)
     = [ {[ "user" := "?a" ]} ].
Proof.
  cbn zeta. split; [vm_compute; repeat constructor |].
  vm_compute. split; reflexivity.
Qed.

End Revised.
